(** * minikube-pilot: the FastAPI demo service of [app/main.py]

  A shallow embedding of the three request handlers ([root], [get_info],
  [metrics]) and of the module-level metric objects they mutate, followed by
  the properties of the service's specification.

  The handlers call into four libraries.  Their behaviour is modelled as
  far as the handlers depend on it:
  - [os.getenv], string concatenation and [str] (module [Py]);
  - [prometheus_client]: [Counter], [Gauge], [labels], [inc], [set] and the
    text exposition written by [generate_latest] (module [Prometheus]);
  - Starlette/FastAPI responses (module [Http]);
  - the operating system, reached through [psutil], [time], [threading] and
    [socket]: one record [World] per request holds what each call answers,
    a value or a raised exception.

  Numbers.  A counter holds a Python float that only ever receives [+ 1];
  it is modelled by the integer it represents (exact below 2^53).  Gauge
  readings are floats and are modelled by the rational they denote. *)

From Stdlib Require Import ZArith QArith Lia Ascii.
From stdpp Require Import base strings list gmap pretty.

(** ** Strings *)

Module Str.

(** Line feed, double quote and backslash, the three characters the
    exposition format escapes. *)
Definition LF : ascii := "010"%char.
Definition DQUOTE : ascii := "034"%char.
Definition BACKSLASH : ascii := "092"%char.

Definition of_char (c : ascii) : string := String c EmptyString.

(** [''.join(parts)] *)
Definition join (parts : list string) : string :=
  foldr String.append EmptyString parts.

(** [sep.join(parts)] *)
Fixpoint join_with (sep : string) (parts : list string) : string :=
  match parts with
  | [] => EmptyString
  | [p] => p
  | p :: rest => p +:+ sep +:+ join_with sep rest
  end.

(** [s.endswith(suffix)] and [s[:-len(suffix)]] *)
Definition endswith (s suffix : string) : bool :=
  bool_decide
    (String.substring (String.length s - String.length suffix)
                      (String.length suffix) s = suffix
     ∧ (String.length suffix <= String.length s)%nat).

Definition drop_last (n : nat) (s : string) : string :=
  String.substring 0 (String.length s - n) s.

(** [needle in hay] *)
Definition contains (hay needle : string) : Prop :=
  ∃ pre post, hay = pre +:+ needle +:+ post.

(** [s.startswith(prefix)] as a proposition *)
Definition starts_with (s pre : string) : Prop :=
  ∃ post, s = pre +:+ post.

End Str.

(** ** Python values that reach a response body *)

Module Py.

Inductive value : Type :=
| None_
| Str (s : string).

Definition is_str (v : value) : Prop :=
  match v with Str _ => True | None_ => False end.

(** [str(v)] *)
Definition str (v : value) : string :=
  match v with
  | None_ => "None"
  | Str s => s
  end.

(** [os.getenv(key, default)], that is [os.environ.get(key, default)]:
    the variable's value when it is set, [default] otherwise. *)
Definition getenv (environ : gmap string string) (key : string)
           (default : value) : value :=
  match environ !! key with
  | Some v => Str v
  | None => default
  end.

(** [a + b] on two [str] operands (the only use in the source has a
    literal on the left and [socket.gethostname()] on the right). *)
Definition add (a b : string) : value := Str (a +:+ b).

(** A raised exception, by what it reports. *)
Definition exn : Type := string.

(** The result of a call that may raise. *)
Inductive outcome (A : Type) : Type :=
| Return (a : A)
| Raise (e : exn).
Arguments Return {A} a.
Arguments Raise {A} e.

End Py.

(** ** prometheus_client *)

Module Prometheus.

(** [_build_full_name(metric_type, name, namespace='', subsystem='', unit='')]:
    a counter's name loses a trailing [_total]; the exposition adds it back. *)
Definition build_full_name (metric_type name : string) : string :=
  if bool_decide (metric_type = "counter") && Str.endswith name "_total"
  then Str.drop_last 6 name
  else name.

(** A [Counter].  Without label names it holds its own [value]; with label
    names it is a parent whose children live in [metrics], a dict from the
    tuple of label values to the child's value, in insertion order. *)
Record Counter : Type := mkCounter {
  counter_name : string;
  counter_documentation : string;
  counter_labelnames : list string;
  counter_value : Z;
  counter_metrics : list (list string * Z);
}.

(** A [Gauge] without labels. *)
Record Gauge : Type := mkGauge {
  gauge_name : string;
  gauge_documentation : string;
  gauge_value : Q;
}.

(** [Counter(name, documentation, labelnames=())] *)
Definition new_Counter (name documentation : string)
           (labelnames : list string) : Counter :=
  {| counter_name := build_full_name "counter" name;
     counter_documentation := documentation;
     counter_labelnames := labelnames;
     counter_value := 0;
     counter_metrics := [] |}.

(** [Gauge(name, documentation)] *)
Definition new_Gauge (name documentation : string) : Gauge :=
  {| gauge_name := build_full_name "gauge" name;
     gauge_documentation := documentation;
     gauge_value := 0 |}.

(** [c.inc()] on a counter without labels: [self._value.inc(1)]. *)
Definition inc (c : Counter) : Counter :=
  {| counter_name := counter_name c;
     counter_documentation := counter_documentation c;
     counter_labelnames := counter_labelnames c;
     counter_value := (counter_value c + 1)%Z;
     counter_metrics := counter_metrics c |}.

(** [self._metrics.get(labelvalues)] *)
Fixpoint child_value (labelvalues : list string)
         (metrics : list (list string * Z)) : option Z :=
  match metrics with
  | [] => None
  | (k, v) :: rest =>
      if decide (k = labelvalues) then Some v else child_value labelvalues rest
  end.

(** [child.inc()] on the child stored under [labelvalues]. *)
Fixpoint child_inc (labelvalues : list string)
         (metrics : list (list string * Z)) : list (list string * Z) :=
  match metrics with
  | [] => []
  | (k, v) :: rest =>
      if decide (k = labelvalues) then (k, (v + 1)%Z) :: rest
      else (k, v) :: child_inc labelvalues rest
  end.

(** [c.labels(...)]: the child for these label values, created with value 0
    at the end of the dict when it is not there yet. *)
Definition labels (labelvalues : list string) (c : Counter) : Counter :=
  {| counter_name := counter_name c;
     counter_documentation := counter_documentation c;
     counter_labelnames := counter_labelnames c;
     counter_value := counter_value c;
     counter_metrics :=
       match child_value labelvalues (counter_metrics c) with
       | Some _ => counter_metrics c
       | None => counter_metrics c ++ [(labelvalues, 0%Z)]
       end |}.

(** [c.labels(...).inc()] *)
Definition labels_inc (labelvalues : list string) (c : Counter) : Counter :=
  let c' := labels labelvalues c in
  {| counter_name := counter_name c';
     counter_documentation := counter_documentation c';
     counter_labelnames := counter_labelnames c';
     counter_value := counter_value c';
     counter_metrics := child_inc labelvalues (counter_metrics c') |}.

(** [g.set(value)]: [self._value.set(float(value))]. *)
Definition set (g : Gauge) (v : Q) : Gauge :=
  {| gauge_name := gauge_name g;
     gauge_documentation := gauge_documentation g;
     gauge_value := v |}.

(** *** Collection: what [registry.collect()] yields for one metric *)

Record Sample : Type := mkSample {
  sample_name : string;
  sample_labels : list (string * string);
  sample_value : Q;
}.

Record Metric : Type := mkMetric {
  metric_name : string;
  metric_documentation : string;
  metric_type : string;
  metric_samples : list Sample;
}.

(** [Counter.collect()]: one [_total] sample for a counter without labels,
    one per child, labelled, for a parent. *)
Definition collect_Counter (c : Counter) : Metric :=
  {| metric_name := counter_name c;
     metric_documentation := counter_documentation c;
     metric_type := "counter";
     metric_samples :=
       match counter_labelnames c with
       | [] => [mkSample (counter_name c +:+ "_total") [] (inject_Z (counter_value c))]
       | names =>
           map (λ child : list string * Z,
                  mkSample (counter_name c +:+ "_total")
                           (zip names (fst child))
                           (inject_Z (snd child)))
               (counter_metrics c)
       end |}.

Definition collect_Gauge (g : Gauge) : Metric :=
  {| metric_name := gauge_name g;
     metric_documentation := gauge_documentation g;
     metric_type := "gauge";
     metric_samples := [mkSample (gauge_name g) [] (gauge_value g)] |}.

(** *** Text exposition (format 0.0.4) *)

(** Modelled from the spec: the value of [CONTENT_TYPE_LATEST], a constant of
    prometheus_client that the source imports and passes on as the media
    type; the spec gives [text/plain; version=0.0.4], which the library
    completes with the charset. *)
Definition CONTENT_TYPE_LATEST : string :=
  "text/plain; version=0.0.4; charset=utf-8".

(** [v.replace('\\', r'\\').replace('\n', r'\n').replace('"', r'\"')] *)
Fixpoint escape_label_value (v : string) : string :=
  match v with
  | EmptyString => EmptyString
  | String c rest =>
      (if decide (c = Str.BACKSLASH) then String Str.BACKSLASH (Str.of_char Str.BACKSLASH)
       else if decide (c = Str.LF) then String Str.BACKSLASH "n"
       else if decide (c = Str.DQUOTE) then String Str.BACKSLASH (Str.of_char Str.DQUOTE)
       else Str.of_char c)
      +:+ escape_label_value rest
  end.

(** [doc.replace('\\', r'\\').replace('\n', r'\n')] *)
Fixpoint escape_documentation (v : string) : string :=
  match v with
  | EmptyString => EmptyString
  | String c rest =>
      (if decide (c = Str.BACKSLASH) then String Str.BACKSLASH (Str.of_char Str.BACKSLASH)
       else if decide (c = Str.LF) then String Str.BACKSLASH "n"
       else Str.of_char c)
      +:+ escape_documentation rest
  end.

Section Exposition.

(** [floatToGoString]: how a float is printed.  The handlers do not depend
    on it, so it stays a parameter of the exposition. *)
Variable floatToGoString : Q → string.

(** [k="v"] *)
Definition label_pair (kv : string * string) : string :=
  fst kv +:+ "=" +:+ Str.of_char Str.DQUOTE
    +:+ escape_label_value (snd kv) +:+ Str.of_char Str.DQUOTE.

Definition labelstr (labels : list (string * string)) : string :=
  match labels with
  | [] => EmptyString
  | _ => "{" +:+ Str.join_with "," (map label_pair labels) +:+ "}"
  end.

(** [sample_line(s)]: [name{labels} value\n] (no timestamps are set). *)
Definition sample_line (s : Sample) : string :=
  sample_name s +:+ labelstr (sample_labels s) +:+ " "
    +:+ floatToGoString (sample_value s) +:+ Str.of_char Str.LF.

(** The family name printed on the HELP and TYPE lines. *)
Definition exposed_name (m : Metric) : string :=
  if bool_decide (metric_type m = "counter")
  then metric_name m +:+ "_total"
  else metric_name m.

Definition help_line (m : Metric) : string :=
  "# HELP " +:+ exposed_name m +:+ " "
    +:+ escape_documentation (metric_documentation m) +:+ Str.of_char Str.LF.

Definition type_line (m : Metric) : string :=
  "# TYPE " +:+ exposed_name m +:+ " " +:+ metric_type m +:+ Str.of_char Str.LF.

Definition metric_lines (m : Metric) : list string :=
  help_line m :: type_line m :: map sample_line (metric_samples m).

(** [generate_latest(registry)] over the collected families.  The default
    registry also holds the process, platform and garbage-collector
    collectors, and a counter is followed by its [_created] series; both only
    add lines of their own and are left out. *)
Definition generate_latest (collected : list Metric) : string :=
  Str.join (concat (map metric_lines collected)).

End Exposition.

End Prometheus.

(** ** Starlette / FastAPI responses *)

Module Http.

Inductive Body : Type :=
| Empty
| Text (content : string)
| Json (object : list (string * Py.value)).

Record Response : Type := mkResponse {
  status_code : Z;
  media_type : option string;
  location : option string;
  body : Body;
}.

(** [Response(content, status_code=200, headers=None, media_type=None)] *)
Definition new_Response (content : string) (media_type : option string) : Response :=
  {| status_code := 200; media_type := media_type; location := None;
     body := Text content |}.

(** [RedirectResponse(url, status_code=307)]: Starlette's default status is
    307 Temporary Redirect; the target goes into the [location] header. *)
Definition RedirectResponse_default_status : Z := 307.

Definition RedirectResponse (url : string) : Response :=
  {| status_code := RedirectResponse_default_status; media_type := None;
     location := Some url; body := Empty |}.

(** What FastAPI sends for a handler that returns a dict:
    [JSONResponse(content, status_code=200)]. *)
Definition JSONResponse (content : list (string * Py.value)) : Response :=
  {| status_code := 200; media_type := Some "application/json";
     location := None; body := Json content |}.

(** What Starlette's [ServerErrorMiddleware] sends when a handler raises:
    [PlainTextResponse("Internal Server Error", status_code=500)]. *)
Definition server_error : Response :=
  {| status_code := 500; media_type := Some "text/plain";
     location := None; body := Text "Internal Server Error" |}.

End Http.

(** ** The operating system, as one request sees it *)

(** The five statistics [metrics] samples. *)
Inductive OsCall : Type :=
| call_cpu_percent
| call_virtual_memory
| call_time
| call_active_count
| call_disk_usage.

Record World : Type := mkWorld {
  (** [os.environ], which [load_dotenv()] completed at import from a local
      environment file, never overriding a variable already set *)
  environ : gmap string string;
  (** [socket.gethostname()] *)
  gethostname : string;
  (** [psutil.cpu_percent()] *)
  cpu_percent : Py.outcome Q;
  (** [psutil.virtual_memory().percent] *)
  virtual_memory_percent : Py.outcome Q;
  (** [time.time()] *)
  time_time : Py.outcome Q;
  (** [threading.active_count()] *)
  active_count : Py.outcome Z;
  (** [psutil.disk_usage(path).percent] *)
  disk_usage_percent : string → Py.outcome Q;
}.

(** ** [app/main.py]: module-level state *)

Record Globals : Type := mkGlobals {
  REQUEST_COUNT : Prometheus.Counter;
  REQUEST_COUNT_PER_VERSION : Prometheus.Counter;
  CPU_USAGE : Prometheus.Gauge;
  MEMORY_USAGE : Prometheus.Gauge;
  UPTIME : Prometheus.Gauge;
  THREAD_COUNT : Prometheus.Gauge;
  DISK_USAGE : Prometheus.Gauge;
  START_TIME : Q;
}.

(** The module body, lines 20-32; [now] is what [time.time()] answers at
    import. *)
Definition import_main (now : Q) : Globals :=
  {| REQUEST_COUNT :=
       Prometheus.new_Counter "get_info_requests_total"
         "Total number of GET /get_info requests" [];
     REQUEST_COUNT_PER_VERSION :=
       Prometheus.new_Counter "get_info_requests_total_by_version"
         "GET /get_info requests by app version" ["version"];
     CPU_USAGE := Prometheus.new_Gauge "cpu_usage_percent" "CPU usage percentage";
     MEMORY_USAGE := Prometheus.new_Gauge "memory_usage_percent" "Memory usage percentage";
     UPTIME := Prometheus.new_Gauge "uptime_seconds" "App uptime in seconds";
     THREAD_COUNT := Prometheus.new_Gauge "thread_count" "Number of active threads";
     DISK_USAGE := Prometheus.new_Gauge "disk_usage_percent" "Disk usage percentage";
     START_TIME := now |}.

(** The default registry's metrics of this module, in registration order. *)
Definition collect (g : Globals) : list Prometheus.Metric :=
  [ Prometheus.collect_Counter (REQUEST_COUNT g);
    Prometheus.collect_Counter (REQUEST_COUNT_PER_VERSION g);
    Prometheus.collect_Gauge (CPU_USAGE g);
    Prometheus.collect_Gauge (MEMORY_USAGE g);
    Prometheus.collect_Gauge (UPTIME g);
    Prometheus.collect_Gauge (THREAD_COUNT g);
    Prometheus.collect_Gauge (DISK_USAGE g) ].

(** The gauges by name, and the update of one of them. *)
Inductive GaugeId : Type :=
| id_CPU_USAGE
| id_MEMORY_USAGE
| id_UPTIME
| id_THREAD_COUNT
| id_DISK_USAGE.

Definition gauge (i : GaugeId) (g : Globals) : Prometheus.Gauge :=
  match i with
  | id_CPU_USAGE => CPU_USAGE g
  | id_MEMORY_USAGE => MEMORY_USAGE g
  | id_UPTIME => UPTIME g
  | id_THREAD_COUNT => THREAD_COUNT g
  | id_DISK_USAGE => DISK_USAGE g
  end.

Definition update_gauge (i : GaugeId) (f : Prometheus.Gauge → Prometheus.Gauge)
           (g : Globals) : Globals :=
  {| REQUEST_COUNT := REQUEST_COUNT g;
     REQUEST_COUNT_PER_VERSION := REQUEST_COUNT_PER_VERSION g;
     CPU_USAGE := if i is id_CPU_USAGE then f (CPU_USAGE g) else CPU_USAGE g;
     MEMORY_USAGE := if i is id_MEMORY_USAGE then f (MEMORY_USAGE g) else MEMORY_USAGE g;
     UPTIME := if i is id_UPTIME then f (UPTIME g) else UPTIME g;
     THREAD_COUNT := if i is id_THREAD_COUNT then f (THREAD_COUNT g) else THREAD_COUNT g;
     DISK_USAGE := if i is id_DISK_USAGE then f (DISK_USAGE g) else DISK_USAGE g;
     START_TIME := START_TIME g |}.

Definition update_REQUEST_COUNT (f : Prometheus.Counter → Prometheus.Counter)
           (g : Globals) : Globals :=
  {| REQUEST_COUNT := f (REQUEST_COUNT g);
     REQUEST_COUNT_PER_VERSION := REQUEST_COUNT_PER_VERSION g;
     CPU_USAGE := CPU_USAGE g;
     MEMORY_USAGE := MEMORY_USAGE g;
     UPTIME := UPTIME g;
     THREAD_COUNT := THREAD_COUNT g;
     DISK_USAGE := DISK_USAGE g;
     START_TIME := START_TIME g |}.

Definition update_REQUEST_COUNT_PER_VERSION
           (f : Prometheus.Counter → Prometheus.Counter) (g : Globals) : Globals :=
  {| REQUEST_COUNT := REQUEST_COUNT g;
     REQUEST_COUNT_PER_VERSION := f (REQUEST_COUNT_PER_VERSION g);
     CPU_USAGE := CPU_USAGE g;
     MEMORY_USAGE := MEMORY_USAGE g;
     UPTIME := UPTIME g;
     THREAD_COUNT := THREAD_COUNT g;
     DISK_USAGE := DISK_USAGE g;
     START_TIME := START_TIME g |}.

(** [G.set(v)] on the gauge [i]. *)
Definition set_gauge (i : GaugeId) (v : Q) (g : Globals) : Globals :=
  update_gauge i (λ x, Prometheus.set x v) g.

(** ** Handler code: state, a log of effects, and exceptions *)

(** What a handler does that the outside can observe, in program order. *)
Inductive Event : Type :=
| Sampled (c : OsCall)
| GaugeSet (i : GaugeId) (v : Q)
| CounterInc (name : string) (labelvalues : list string).

(** A run of handler code: the globals it leaves, the effects it performed,
    and its value or the exception that ended it. *)
Record Run (A : Type) : Type := mkRun {
  globals : Globals;
  events : list Event;
  result : Py.outcome A;
}.
Arguments mkRun {A} _ _ _.
Arguments globals {A} _.
Arguments events {A} _.
Arguments result {A} _.

Definition M (A : Type) : Type := World → Globals → Run A.

Definition ret {A : Type} (a : A) : M A :=
  λ _ g, mkRun g [] (Py.Return a).

(** Sequencing: an exception in the first part skips the second. *)
Definition bind {A B : Type} (m : M A) (k : A → M B) : M B :=
  λ w g,
    match m w g with
    | mkRun g1 log1 (Py.Return a) =>
        match k a w g1 with
        | mkRun g2 log2 out => mkRun g2 (log1 ++ log2) out
        end
    | mkRun g1 log1 (Py.Raise e) => mkRun g1 log1 (Py.Raise e)
    end.

#[global] Instance M_ret : MRet M := @ret.
#[global] Instance M_bind : MBind M := λ A B k m, bind m k.

(** A call into the operating system: logged, then its answer. *)
Definition os_call {A : Type} (c : OsCall) (answer : World → Py.outcome A) : M A :=
  λ w g, mkRun g [Sampled c] (answer w).

Definition os_getenv (key : string) (default : Py.value) : M Py.value :=
  λ w g, mkRun g [] (Py.Return (Py.getenv (environ w) key default)).

Definition socket_gethostname : M string :=
  λ w g, mkRun g [] (Py.Return (gethostname w)).

Definition Gauge_set (i : GaugeId) (v : Q) : M unit :=
  λ _ g, mkRun (set_gauge i v g) [GaugeSet i v] (Py.Return tt).

Definition read_START_TIME : M Q :=
  λ _ g, mkRun g [] (Py.Return (START_TIME g)).

Definition REQUEST_COUNT_inc : M unit :=
  λ _ g,
    mkRun (update_REQUEST_COUNT Prometheus.inc g)
          [CounterInc (Prometheus.counter_name (REQUEST_COUNT g)) []]
          (Py.Return tt).

Definition REQUEST_COUNT_PER_VERSION_labels_inc (version : string) : M unit :=
  λ _ g,
    mkRun (update_REQUEST_COUNT_PER_VERSION (Prometheus.labels_inc [version]) g)
          [CounterInc (Prometheus.counter_name (REQUEST_COUNT_PER_VERSION g)) [version]]
          (Py.Return tt).

(** What a path operation function hands back to FastAPI. *)
Inductive Returned : Type :=
| Dict (items : list (string * Py.value))
| Resp (r : Http.Response).

(** The three routes of the application. *)
Inductive Route : Type :=
| GET_root
| GET_get_info
| GET_metrics.

Section Service.

Variable floatToGoString : Q → string.

Definition prometheus_generate_latest : M string :=
  λ _ g, mkRun g [] (Py.Return (Prometheus.generate_latest floatToGoString (collect g))).

(** ** [app/main.py]: the handlers *)

(** Lines 34-36. *)
Definition root : M Returned :=
  mret (Resp (Http.RedirectResponse "/get_info")).

(** Lines 38-50. *)
Definition get_info : M Returned :=
  app_title ← os_getenv "APP_TITLE" (Py.Str "My FastAPI App");
  app_version ← os_getenv "APP_VERSION" (Py.Str "1.0");
  REQUEST_COUNT_inc;;
  REQUEST_COUNT_PER_VERSION_labels_inc (Py.str app_version);;
  hostname ← socket_gethostname;
  mret (Dict [ ("APP_VERSION", app_version);
               ("APP_TITLE", app_title);
               ("MESSAGE", Py.add "Hello from " hostname) ]).

(** Lines 52-60. *)
Definition metrics : M Returned :=
  cpu ← os_call call_cpu_percent cpu_percent;
  Gauge_set id_CPU_USAGE cpu;;
  mem ← os_call call_virtual_memory virtual_memory_percent;
  Gauge_set id_MEMORY_USAGE mem;;
  now ← os_call call_time time_time;
  start ← read_START_TIME;
  Gauge_set id_UPTIME (now - start)%Q;;
  threads ← os_call call_active_count active_count;
  Gauge_set id_THREAD_COUNT (inject_Z threads);;
  disk ← os_call call_disk_usage (λ w, disk_usage_percent w "/");
  Gauge_set id_DISK_USAGE disk;;
  text ← prometheus_generate_latest;
  mret (Resp (Http.new_Response text (Some Prometheus.CONTENT_TYPE_LATEST))).

Definition endpoint (r : Route) : M Returned :=
  match r with
  | GET_root => root
  | GET_get_info => get_info
  | GET_metrics => metrics
  end.

(** ** Serving a request *)

(** FastAPI around a handler: a dict becomes a JSON response with status
    200, a response object is sent as it is, and an exception that leaves
    the handler becomes the server-error response. *)
Definition respond (out : Py.outcome Returned) : Http.Response :=
  match out with
  | Py.Return (Dict items) => Http.JSONResponse items
  | Py.Return (Resp r) => r
  | Py.Raise _ => Http.server_error
  end.

(** One request: the globals afterwards, the effects, and the response. *)
Definition serve (r : Route) (w : World) (g : Globals)
  : Globals * list Event * Http.Response :=
  let run := endpoint r w g in
  (globals run, events run, respond (result run)).

Definition globals_after (r : Route) (w : World) (g : Globals) : Globals :=
  (serve r w g).1.1.

Definition events_of (r : Route) (w : World) (g : Globals) : list Event :=
  (serve r w g).1.2.

Definition response_of (r : Route) (w : World) (g : Globals) : Http.Response :=
  (serve r w g).2.

(** A sequence of requests, each with the world it runs in. *)
Fixpoint serve_all (requests : list (Route * World)) (g : Globals) : Globals :=
  match requests with
  | [] => g
  | (r, w) :: rest => serve_all rest (globals_after r w g)
  end.

End Service.

(** ** What the properties observe *)

Definition returns {A : Type} (o : Py.outcome A) : Prop :=
  match o with Py.Return _ => True | Py.Raise _ => False end.

Definition raises {A : Type} (o : Py.outcome A) : Prop :=
  match o with Py.Return _ => False | Py.Raise _ => True end.

#[global] Instance returns_dec {A : Type} (o : Py.outcome A) : Decision (returns o).
Proof. destruct o; simpl; apply _. Defined.

#[global] Instance raises_dec {A : Type} (o : Py.outcome A) : Decision (raises o).
Proof. destruct o; simpl; apply _. Defined.

Definition outcome_map {A B : Type} (f : A → B) (o : Py.outcome A) : Py.outcome B :=
  match o with
  | Py.Return a => Py.Return (f a)
  | Py.Raise e => Py.Raise e
  end.

(** The value of [get_info_requests_total]. *)
Definition total (g : Globals) : Z :=
  Prometheus.counter_value (REQUEST_COUNT g).

(** The child of [get_info_requests_total_by_version] for one version, when
    it exists, and its value (0 while it does not exist). *)
Definition series (version : string) (g : Globals) : option Z :=
  Prometheus.child_value [version]
    (Prometheus.counter_metrics (REQUEST_COUNT_PER_VERSION g)).

Definition by_version (version : string) (g : Globals) : Z :=
  default 0%Z (series version g).

(** The version a [get_info] request in world [w] reports and counts. *)
Definition active_version (w : World) : string :=
  Py.str (Py.getenv (environ w) "APP_VERSION" (Py.Str "1.0")).

(** The entry of a JSON body under a key. *)
Fixpoint assoc (key : string) (items : list (string * Py.value)) : option Py.value :=
  match items with
  | [] => None
  | (k, v) :: rest => if decide (k = key) then Some v else assoc key rest
  end.

Definition json_get (key : string) (r : Http.Response) : option Py.value :=
  match Http.body r with
  | Http.Json items => assoc key items
  | _ => None
  end.

Definition json_keys (r : Http.Response) : option (list string) :=
  match Http.body r with
  | Http.Json items => Some (map fst items)
  | _ => None
  end.

Definition text_of (r : Http.Response) : option string :=
  match Http.body r with
  | Http.Text content => Some content
  | _ => None
  end.

(** The seven metric names of the module. *)
Definition metric_names : list string :=
  [ "get_info_requests_total"; "get_info_requests_total_by_version";
    "cpu_usage_percent"; "memory_usage_percent"; "uptime_seconds";
    "thread_count"; "disk_usage_percent" ].

(** The order in which [metrics] treats the gauges, the call that feeds each
    of them, and the value a gauge receives from its call's answer. *)
Definition gauge_order : list GaugeId :=
  [id_CPU_USAGE; id_MEMORY_USAGE; id_UPTIME; id_THREAD_COUNT; id_DISK_USAGE].

Definition position (i : GaugeId) : nat :=
  match i with
  | id_CPU_USAGE => 0
  | id_MEMORY_USAGE => 1
  | id_UPTIME => 2
  | id_THREAD_COUNT => 3
  | id_DISK_USAGE => 4
  end.

Definition call_of (i : GaugeId) : OsCall :=
  match i with
  | id_CPU_USAGE => call_cpu_percent
  | id_MEMORY_USAGE => call_virtual_memory
  | id_UPTIME => call_time
  | id_THREAD_COUNT => call_active_count
  | id_DISK_USAGE => call_disk_usage
  end.

Definition sampled_value (i : GaugeId) (w : World) (g : Globals) : Py.outcome Q :=
  match i with
  | id_CPU_USAGE => cpu_percent w
  | id_MEMORY_USAGE => virtual_memory_percent w
  | id_UPTIME => outcome_map (λ now, now - START_TIME g)%Q (time_time w)
  | id_THREAD_COUNT => outcome_map inject_Z (active_count w)
  | id_DISK_USAGE => disk_usage_percent w "/"
  end.

(** All five sampling calls answer with a value. *)
Definition sampling_succeeds (w : World) : Prop :=
  returns (cpu_percent w) ∧ returns (virtual_memory_percent w)
  ∧ returns (time_time w) ∧ returns (active_count w)
  ∧ returns (disk_usage_percent w "/").

(** The first gauge, in program order, whose sampling call raises. *)
Definition first_failure (w : World) (g : Globals) : option GaugeId :=
  List.find (λ i, bool_decide (raises (sampled_value i w g))) gauge_order.

(** The gauges set and the calls made, read off the log of effects. *)
Definition gauges_set (log : list Event) : list GaugeId :=
  omap (λ e, match e with GaugeSet i _ => Some i | _ => None end) log.

Definition calls_made (log : list Event) : list OsCall :=
  omap (λ e, match e with Sampled c => Some c | _ => None end) log.

(** What psutil and threading document about their answers: percentages lie
    between 0 and 100, and the main thread is always counted. *)
Definition documented_ranges (w : World) : Prop :=
  (∀ x, cpu_percent w = Py.Return x → (0 <= x <= 100)%Q)
  ∧ (∀ x, virtual_memory_percent w = Py.Return x → (0 <= x <= 100)%Q)
  ∧ (∀ n, active_count w = Py.Return n → (1 <= n)%Z).

(** How [floatToGoString] prints in the closed examples below: the fraction
    as it stands. *)
Definition show_Z (z : Z) : string :=
  match z with
  | Z0 => "0"
  | Zpos p => pretty (Npos p)
  | Zneg p => "-" +:+ pretty (Npos p)
  end.

Definition show_fraction (q : Q) : string :=
  show_Z (Qnum q) +:+ "/" +:+ pretty (Npos (Qden q)).

#[global] Instance Route_eq_dec : EqDecision Route.
Proof. solve_decision. Defined.

#[global] Instance GaugeId_eq_dec : EqDecision GaugeId.
Proof. solve_decision. Defined.

(** How many [get_info] requests of a history ran with a given version
    active, and how many ran at all. *)
Definition info_requests (version : string) (history : list (Route * World)) : nat :=
  length (filter (λ rw, rw.1 = GET_get_info ∧ active_version rw.2 = version) history).

Definition all_info_requests (history : list (Route * World)) : nat :=
  length (filter (λ rw, rw.1 = GET_get_info) history).

(** What the module fixes at import and no handler assigns: the names,
    help texts and label names of the metrics, and [START_TIME]. *)
Definition registration (g : Globals)
  : (string * string * list string) * (string * string * list string)
    * list (string * string) * Q :=
  ( ( Prometheus.counter_name (REQUEST_COUNT g),
      Prometheus.counter_documentation (REQUEST_COUNT g),
      Prometheus.counter_labelnames (REQUEST_COUNT g) ),
    ( Prometheus.counter_name (REQUEST_COUNT_PER_VERSION g),
      Prometheus.counter_documentation (REQUEST_COUNT_PER_VERSION g),
      Prometheus.counter_labelnames (REQUEST_COUNT_PER_VERSION g) ),
    map (λ i, (Prometheus.gauge_name (gauge i g),
               Prometheus.gauge_documentation (gauge i g))) gauge_order,
    START_TIME g ).

(** The label values of the children of [REQUEST_COUNT_PER_VERSION]. *)
Definition versions_seen (g : Globals) : list (list string) :=
  map fst (Prometheus.counter_metrics (REQUEST_COUNT_PER_VERSION g)).

(** ** Further observations *)

(** The sum of the values of all children of a labelled counter. *)
Definition children_total (c : Prometheus.Counter) : Z :=
  foldr (λ child acc, (child.2 + acc)%Z) 0%Z (Prometheus.counter_metrics c).

(** The names the module gives its gauges (lines 26-30). *)
Definition registered_name (i : GaugeId) : string :=
  match i with
  | id_CPU_USAGE => "cpu_usage_percent"
  | id_MEMORY_USAGE => "memory_usage_percent"
  | id_UPTIME => "uptime_seconds"
  | id_THREAD_COUNT => "thread_count"
  | id_DISK_USAGE => "disk_usage_percent"
  end.

(** The version a request finds in its environment: the value of
    [APP_VERSION] when it is set, ["1.0"] when it is not. *)
Definition environment_version (w : World) : string :=
  default "1.0" (environ w !! "APP_VERSION").

(** How many [get_info] requests of a history found a given version in
    their environment. *)
Definition requests_under (version : string) (history : list (Route * World)) : nat :=
  length (filter (λ rw, rw.1 = GET_get_info ∧ environment_version rw.2 = version)
                 history).

(** The versions the [get_info] requests of a history found in their
    environment, in request order, and the recording of one more version in
    a list that keeps each version at its first occurrence. *)
Definition requested_versions (history : list (Route * World)) : list string :=
  omap (λ rw : Route * World,
          if decide (rw.1 = GET_get_info) then Some (environment_version rw.2) else None)
       history.

Definition note_version (seen : list string) (v : string) : list string :=
  if decide (v ∈ seen) then seen else seen ++ [v].


(** The lines of the exposition as the text format 0.0.4 spells them, written
    out character by character and independently of [generate_latest]: a
    sample without labels, [name value], and the sample of one version of the
    per-version counter,
    [get_info_requests_total_by_version_total{version="v"} count]. *)
Definition value_line (floatToGoString : Q → string) (name : string) (v : Q) : string :=
  name +:+ " " +:+ floatToGoString v +:+ Str.of_char Str.LF.

Definition series_line (floatToGoString : Q → string) (version : string) (count : Z)
  : string :=
  "get_info_requests_total_by_version_total{version=" +:+ Str.of_char Str.DQUOTE
    +:+ Prometheus.escape_label_value version +:+ Str.of_char Str.DQUOTE
    +:+ "} " +:+ floatToGoString (inject_Z count) +:+ Str.of_char Str.LF.



(** ** Concrete worlds and histories for the closed examples *)

(** A healthy host: nothing set in the environment, every call answers. *)
Definition world_ok : World :=
  {| environ := ∅;
     gethostname := "pilot-7d9f";
     cpu_percent := Py.Return (5 # 2);
     virtual_memory_percent := Py.Return (40 # 1);
     time_time := Py.Return (110 # 1);
     active_count := Py.Return 3%Z;
     disk_usage_percent := λ _, Py.Return (7 # 1) |}.

(** The same host ten seconds later. *)
Definition world_later : World :=
  {| environ := ∅;
     gethostname := "pilot-7d9f";
     cpu_percent := Py.Return (5 # 2);
     virtual_memory_percent := Py.Return (40 # 1);
     time_time := Py.Return (120 # 1);
     active_count := Py.Return 3%Z;
     disk_usage_percent := λ _, Py.Return (7 # 1) |}.

(** The same host after its wall clock was set back by five seconds. *)
Definition world_clock_set_back : World :=
  {| environ := ∅;
     gethostname := "pilot-7d9f";
     cpu_percent := Py.Return (5 # 2);
     virtual_memory_percent := Py.Return (40 # 1);
     time_time := Py.Return (105 # 1);
     active_count := Py.Return 3%Z;
     disk_usage_percent := λ _, Py.Return (7 # 1) |}.

(** The same host when [psutil.disk_usage] raises. *)
Definition world_disk_fails : World :=
  {| environ := ∅;
     gethostname := "pilot-7d9f";
     cpu_percent := Py.Return (5 # 2);
     virtual_memory_percent := Py.Return (40 # 1);
     time_time := Py.Return (110 # 1);
     active_count := Py.Return 3%Z;
     disk_usage_percent := λ _, Py.Raise "OSError: [Errno 2] No such file or directory" |}.

(** The same host with [APP_VERSION=2.0] in the environment. *)
Definition world_v2 : World :=
  {| environ := {[ "APP_VERSION" := "2.0" ]};
     gethostname := "pilot-7d9f";
     cpu_percent := Py.Return (5 # 2);
     virtual_memory_percent := Py.Return (40 # 1);
     time_time := Py.Return (110 # 1);
     active_count := Py.Return 3%Z;
     disk_usage_percent := λ _, Py.Return (7 # 1) |}.

(** A host on which [APP_VERSION] is set, but to the empty string, and
    [APP_TITLE] is set too. *)
Definition world_blank_version : World :=
  {| environ := {[ "APP_VERSION" := EmptyString; "APP_TITLE" := "Pilot" ]};
     gethostname := "pilot-7d9f";
     cpu_percent := Py.Return (5 # 2);
     virtual_memory_percent := Py.Return (40 # 1);
     time_time := Py.Return (110 # 1);
     active_count := Py.Return 3%Z;
     disk_usage_percent := λ _, Py.Return (7 # 1) |}.

(** The module as imported when [time.time()] answered 100. *)
Definition fresh : Globals := import_main (100 # 1).

(** Two requests under the default version around one under 2.0. *)
Definition mixed_history : list (Route * World) :=
  [ (GET_get_info, world_ok); (GET_get_info, world_v2); (GET_get_info, world_ok) ].

(** * Properties *)

(** ** Strings *)

Lemma append_assoc (a b c : string) : (a +:+ b) +:+ c = a +:+ b +:+ c.
Proof.
  induction a as [|x a IH]; [reflexivity|].
  change (String x ((a +:+ b) +:+ c) = String x (a +:+ b +:+ c)).
  now rewrite IH.
Qed.

Lemma append_nil_r (a : string) : a +:+ EmptyString = a.
Proof.
  induction a as [|x a IH]; [reflexivity|].
  change (String x (a +:+ EmptyString) = String x a).
  now rewrite IH.
Qed.

Lemma contains_refl (s : string) : Str.contains s s.
Proof.
  exists EmptyString, EmptyString.
  change (s = s +:+ EmptyString). now rewrite append_nil_r.
Qed.

Lemma contains_app_l (a b n : string) :
  Str.contains a n → Str.contains (a +:+ b) n.
Proof.
  intros (pre & post & ->). exists pre, (post +:+ b).
  now rewrite !append_assoc.
Qed.

Lemma contains_app_r (a b n : string) :
  Str.contains b n → Str.contains (a +:+ b) n.
Proof.
  intros (pre & post & ->). exists (a +:+ pre), post.
  now rewrite !append_assoc.
Qed.

Lemma contains_join (parts : list string) (p n : string) :
  p ∈ parts → Str.contains p n → Str.contains (Str.join parts) n.
Proof.
  intros Hin Hp. induction Hin as [p parts | p q parts _ IH]; simpl.
  - now apply contains_app_l.
  - now apply contains_app_r, IH.
Qed.



(** ** Counters and their children *)

Lemma child_value_inc_same (k : list string) (m : list (list string * Z)) :
  Prometheus.child_value k (Prometheus.child_inc k m)
  = (λ v, v + 1)%Z <$> Prometheus.child_value k m.
Proof.
  induction m as [|[k' v] m IH]; simpl; [reflexivity|].
  destruct (decide (k' = k)) as [->|Hne]; simpl.
  - now rewrite decide_True.
  - now rewrite decide_False.
Qed.

Lemma child_value_inc_other (k k' : list string) (m : list (list string * Z)) :
  k ≠ k' →
  Prometheus.child_value k' (Prometheus.child_inc k m) = Prometheus.child_value k' m.
Proof.
  intros Hne. induction m as [|[k0 v] m IH]; simpl; [reflexivity|].
  destruct (decide (k0 = k)) as [->|Hk]; simpl.
  - now rewrite !decide_False.
  - destruct (decide (k0 = k')); [reflexivity | exact IH].
Qed.

Lemma child_value_snoc (k k' : list string) (v : Z) (m : list (list string * Z)) :
  Prometheus.child_value k (m ++ [(k', v)])
  = match Prometheus.child_value k m with
    | Some x => Some x
    | None => if decide (k' = k) then Some v else None
    end.
Proof.
  induction m as [|[k0 v0] m IH]; simpl; [reflexivity|].
  destruct (decide (k0 = k)); [reflexivity | exact IH].
Qed.

(** [labels(v).inc()] adds one to the child of [v], creating it first when
    needed, and leaves every other child as it was. *)
Lemma labels_inc_same (k : list string) (c : Prometheus.Counter) :
  Prometheus.child_value k (Prometheus.counter_metrics (Prometheus.labels_inc k c))
  = Some (default 0 (Prometheus.child_value k (Prometheus.counter_metrics c)) + 1)%Z.
Proof.
  unfold Prometheus.labels_inc, Prometheus.labels; simpl.
  rewrite child_value_inc_same.
  destruct (Prometheus.child_value k (Prometheus.counter_metrics c)) as [v|] eqn:Hk.
  - now rewrite Hk.
  - rewrite child_value_snoc, Hk, decide_True by reflexivity. reflexivity.
Qed.

Lemma labels_inc_other (k k' : list string) (c : Prometheus.Counter) :
  k ≠ k' →
  Prometheus.child_value k' (Prometheus.counter_metrics (Prometheus.labels_inc k c))
  = Prometheus.child_value k' (Prometheus.counter_metrics c).
Proof.
  intros Hne. unfold Prometheus.labels_inc, Prometheus.labels; simpl.
  rewrite child_value_inc_other by exact Hne.
  destruct (Prometheus.child_value k (Prometheus.counter_metrics c)); [reflexivity|].
  rewrite child_value_snoc.
  destruct (Prometheus.child_value k' (Prometheus.counter_metrics c)); [reflexivity|].
  now rewrite decide_False.
Qed.

(** ** The handlers, run *)

Ltac unfold_run :=
  unfold mbind, mret, M_bind, M_ret, bind, ret, os_call, os_getenv,
    socket_gethostname, Gauge_set, read_START_TIME, prometheus_generate_latest,
    REQUEST_COUNT_inc, REQUEST_COUNT_PER_VERSION_labels_inc;
  cbn [result globals events environ gethostname cpu_percent
       virtual_memory_percent time_time active_count disk_usage_percent app].

Lemma root_run (w : World) (g : Globals) :
  root w g = mkRun g [] (Py.Return (Resp (Http.RedirectResponse "/get_info"))).
Proof. reflexivity. Qed.

Lemma get_info_run (w : World) (g : Globals) :
  get_info w g
  = mkRun
      (update_REQUEST_COUNT_PER_VERSION
         (Prometheus.labels_inc [active_version w])
         (update_REQUEST_COUNT Prometheus.inc g))
      [ CounterInc (Prometheus.counter_name (REQUEST_COUNT g)) [];
        CounterInc (Prometheus.counter_name (REQUEST_COUNT_PER_VERSION g))
                   [active_version w] ]
      (Py.Return
         (Dict [ ("APP_VERSION", Py.getenv (environ w) "APP_VERSION" (Py.Str "1.0"));
                 ("APP_TITLE", Py.getenv (environ w) "APP_TITLE" (Py.Str "My FastAPI App"));
                 ("MESSAGE", Py.Str ("Hello from " +:+ gethostname w)) ])).
Proof. reflexivity. Qed.

Lemma getenv_str (env : gmap string string) (key default : string) :
  ∃ s, Py.getenv env key (Py.Str default) = Py.Str s.
Proof. unfold Py.getenv. destruct (env !! key); eauto. Qed.

Section Runs.

Variable floatToGoString : Q → string.

(** All five calls answer: all five gauges are set, then the exposition of
    the registry as it then stands is returned. *)
Lemma metrics_run_ok (w : World) (g : Globals) cpu mem now threads disk :
  cpu_percent w = Py.Return cpu →
  virtual_memory_percent w = Py.Return mem →
  time_time w = Py.Return now →
  active_count w = Py.Return threads →
  disk_usage_percent w "/" = Py.Return disk →
  let g' :=
    set_gauge id_DISK_USAGE disk
      (set_gauge id_THREAD_COUNT (inject_Z threads)
         (set_gauge id_UPTIME (now - START_TIME g)%Q
            (set_gauge id_MEMORY_USAGE mem (set_gauge id_CPU_USAGE cpu g)))) in
  metrics floatToGoString w g
  = mkRun g'
      [ Sampled call_cpu_percent; GaugeSet id_CPU_USAGE cpu;
        Sampled call_virtual_memory; GaugeSet id_MEMORY_USAGE mem;
        Sampled call_time; GaugeSet id_UPTIME (now - START_TIME g)%Q;
        Sampled call_active_count; GaugeSet id_THREAD_COUNT (inject_Z threads);
        Sampled call_disk_usage; GaugeSet id_DISK_USAGE disk ]
      (Py.Return
         (Resp (Http.new_Response
                  (Prometheus.generate_latest floatToGoString (collect g'))
                  (Some Prometheus.CONTENT_TYPE_LATEST)))).
Proof.
  intros H1 H2 H3 H4 H5. unfold metrics. unfold_run.
  rewrite H1; cbn [result globals events]. rewrite H2; cbn [result globals events].
  rewrite H3; cbn [result globals events]. rewrite H4; cbn [result globals events].
  rewrite H5; cbn [result globals events]. reflexivity.
Qed.

(** A call raises after the calls before it answered: the handler ends
    there, with that exception, and the gauges set so far stay set. *)
Lemma metrics_run_raise_cpu (w : World) (g : Globals) e :
  cpu_percent w = Py.Raise e →
  metrics floatToGoString w g = mkRun g [Sampled call_cpu_percent] (Py.Raise e).
Proof. intros H1. unfold metrics. unfold_run. rewrite H1. reflexivity. Qed.

Lemma metrics_run_raise_memory (w : World) (g : Globals) cpu e :
  cpu_percent w = Py.Return cpu →
  virtual_memory_percent w = Py.Raise e →
  metrics floatToGoString w g
  = mkRun (set_gauge id_CPU_USAGE cpu g)
      [ Sampled call_cpu_percent; GaugeSet id_CPU_USAGE cpu;
        Sampled call_virtual_memory ]
      (Py.Raise e).
Proof.
  intros H1 H2. unfold metrics. unfold_run.
  rewrite H1; cbn [result globals events]. rewrite H2. reflexivity.
Qed.

Lemma metrics_run_raise_time (w : World) (g : Globals) cpu mem e :
  cpu_percent w = Py.Return cpu →
  virtual_memory_percent w = Py.Return mem →
  time_time w = Py.Raise e →
  metrics floatToGoString w g
  = mkRun (set_gauge id_MEMORY_USAGE mem (set_gauge id_CPU_USAGE cpu g))
      [ Sampled call_cpu_percent; GaugeSet id_CPU_USAGE cpu;
        Sampled call_virtual_memory; GaugeSet id_MEMORY_USAGE mem;
        Sampled call_time ]
      (Py.Raise e).
Proof.
  intros H1 H2 H3. unfold metrics. unfold_run.
  rewrite H1; cbn [result globals events]. rewrite H2; cbn [result globals events].
  rewrite H3. reflexivity.
Qed.

Lemma metrics_run_raise_threads (w : World) (g : Globals) cpu mem now e :
  cpu_percent w = Py.Return cpu →
  virtual_memory_percent w = Py.Return mem →
  time_time w = Py.Return now →
  active_count w = Py.Raise e →
  metrics floatToGoString w g
  = mkRun
      (set_gauge id_UPTIME (now - START_TIME g)%Q
         (set_gauge id_MEMORY_USAGE mem (set_gauge id_CPU_USAGE cpu g)))
      [ Sampled call_cpu_percent; GaugeSet id_CPU_USAGE cpu;
        Sampled call_virtual_memory; GaugeSet id_MEMORY_USAGE mem;
        Sampled call_time; GaugeSet id_UPTIME (now - START_TIME g)%Q;
        Sampled call_active_count ]
      (Py.Raise e).
Proof.
  intros H1 H2 H3 H4. unfold metrics. unfold_run.
  rewrite H1; cbn [result globals events]. rewrite H2; cbn [result globals events].
  rewrite H3; cbn [result globals events]. rewrite H4. reflexivity.
Qed.

Lemma metrics_run_raise_disk (w : World) (g : Globals) cpu mem now threads e :
  cpu_percent w = Py.Return cpu →
  virtual_memory_percent w = Py.Return mem →
  time_time w = Py.Return now →
  active_count w = Py.Return threads →
  disk_usage_percent w "/" = Py.Raise e →
  metrics floatToGoString w g
  = mkRun
      (set_gauge id_THREAD_COUNT (inject_Z threads)
         (set_gauge id_UPTIME (now - START_TIME g)%Q
            (set_gauge id_MEMORY_USAGE mem (set_gauge id_CPU_USAGE cpu g))))
      [ Sampled call_cpu_percent; GaugeSet id_CPU_USAGE cpu;
        Sampled call_virtual_memory; GaugeSet id_MEMORY_USAGE mem;
        Sampled call_time; GaugeSet id_UPTIME (now - START_TIME g)%Q;
        Sampled call_active_count; GaugeSet id_THREAD_COUNT (inject_Z threads);
        Sampled call_disk_usage ]
      (Py.Raise e).
Proof.
  intros H1 H2 H3 H4 H5. unfold metrics. unfold_run.
  rewrite H1; cbn [result globals events]. rewrite H2; cbn [result globals events].
  rewrite H3; cbn [result globals events]. rewrite H4; cbn [result globals events].
  rewrite H5. reflexivity.
Qed.

End Runs.

(** ** What every request leaves alone *)

Section Requests.

Variable floatToGoString : Q → string.

Ltac metrics_cases w g H :=
  destruct (cpu_percent w) as [cpu|e] eqn:Hcpu;
  [ destruct (virtual_memory_percent w) as [mem|e] eqn:Hmem;
    [ destruct (time_time w) as [now|e] eqn:Htime;
      [ destruct (active_count w) as [threads|e] eqn:Hthreads;
        [ destruct (disk_usage_percent w "/") as [disk|e] eqn:Hdisk;
          [ pose proof (metrics_run_ok floatToGoString w g _ _ _ _ _
                          Hcpu Hmem Htime Hthreads Hdisk) as H
          | pose proof (metrics_run_raise_disk floatToGoString w g _ _ _ _ _
                          Hcpu Hmem Htime Hthreads Hdisk) as H ]
        | pose proof (metrics_run_raise_threads floatToGoString w g _ _ _ _
                        Hcpu Hmem Htime Hthreads) as H ]
      | pose proof (metrics_run_raise_time floatToGoString w g _ _ _
                      Hcpu Hmem Htime) as H ]
    | pose proof (metrics_run_raise_memory floatToGoString w g _ _ Hcpu Hmem) as H ]
  | pose proof (metrics_run_raise_cpu floatToGoString w g _ Hcpu) as H ];
  cbv zeta in H.

(** [metrics] touches gauges only. *)
Lemma metrics_counters (w : World) (g : Globals) :
  REQUEST_COUNT (globals (metrics floatToGoString w g)) = REQUEST_COUNT g
  ∧ REQUEST_COUNT_PER_VERSION (globals (metrics floatToGoString w g))
    = REQUEST_COUNT_PER_VERSION g.
Proof. metrics_cases w g Hrun; rewrite Hrun; split; reflexivity. Qed.

Lemma serve_registration (r : Route) (w : World) (g : Globals) :
  registration (globals_after floatToGoString r w g) = registration g.
Proof.
  unfold globals_after, serve. cbn [fst snd]. destruct r; cbn [endpoint].
  - reflexivity.
  - reflexivity.
  - metrics_cases w g Hrun; rewrite Hrun; reflexivity.
Qed.

Lemma serve_all_registration (history : list (Route * World)) (g : Globals) :
  registration (serve_all floatToGoString history g) = registration g.
Proof.
  revert g. induction history as [|[r w] history IH]; intros g; simpl.
  - reflexivity.
  - now rewrite IH, serve_registration.
Qed.

(** One request and the counters: [get_info] adds one to the total and to
    the child of its version; nothing else changes either counter. *)
Lemma serve_total (r : Route) (w : World) (g : Globals) :
  total (globals_after floatToGoString r w g)
  = (total g + if decide (r = GET_get_info) then 1 else 0)%Z.
Proof.
  unfold globals_after, serve, total. cbn [fst snd]. destruct r; cbn [endpoint].
  - rewrite root_run. cbn. case_decide; [discriminate | lia].
  - rewrite get_info_run. cbn. case_decide; [lia | congruence].
  - destruct (metrics_counters w g) as [-> _]. case_decide; [discriminate | lia].
Qed.

Lemma serve_series (r : Route) (w : World) (g : Globals) (v : string) :
  series v (globals_after floatToGoString r w g)
  = if decide (r = GET_get_info ∧ active_version w = v)
    then Some (by_version v g + 1)%Z
    else series v g.
Proof.
  unfold globals_after, serve, by_version, series. cbn [fst snd].
  destruct r; cbn [endpoint].
  - rewrite root_run. rewrite decide_False by (intros [? _]; discriminate). reflexivity.
  - rewrite get_info_run. cbn [globals REQUEST_COUNT_PER_VERSION
      update_REQUEST_COUNT_PER_VERSION update_REQUEST_COUNT].
    destruct (decide (active_version w = v)) as [->|Hne].
    + rewrite decide_True by (split; reflexivity). apply labels_inc_same.
    + rewrite decide_False by (intros [_ ?]; contradiction).
      apply labels_inc_other. congruence.
  - destruct (metrics_counters w g) as [_ ->].
    rewrite decide_False by (intros [? _]; discriminate). reflexivity.
Qed.

(** A history of requests and the counters. *)
Lemma serve_all_total (history : list (Route * World)) (g : Globals) :
  total (serve_all floatToGoString history g)
  = (total g + Z.of_nat (all_info_requests history))%Z.
Proof.
  revert g. unfold all_info_requests.
  induction history as [|[r w] history IH]; intros g; simpl.
  - lia.
  - rewrite IH, serve_total, filter_cons. cbn [fst].
    destruct (decide (r = GET_get_info)); simpl; lia.
Qed.

Lemma serve_all_series (history : list (Route * World)) (g : Globals) (v : string) :
  series v (serve_all floatToGoString history g)
  = if decide (info_requests v history = 0) then series v g
    else Some (by_version v g + Z.of_nat (info_requests v history))%Z.
Proof.
  revert g. unfold info_requests.
  induction history as [|[r w] history IH]; intros g; simpl.
  - reflexivity.
  - rewrite IH, filter_cons. unfold by_version at 1. rewrite serve_series.
    cbn [fst snd].
    destruct (decide (r = GET_get_info ∧ active_version w = v)) as [Hd|Hd]; simpl.
    + destruct (decide (length _ = 0)) as [->|_]; [f_equal; lia|].
      f_equal. lia.
    + destruct (decide (length _ = 0)); reflexivity.
Qed.

Lemma serve_all_by_version (history : list (Route * World)) (g : Globals) (v : string) :
  by_version v (serve_all floatToGoString history g)
  = (by_version v g + Z.of_nat (info_requests v history))%Z.
Proof.
  unfold by_version at 1. rewrite serve_all_series.
  destruct (decide (info_requests v history = 0)) as [->|_]; simpl.
  - unfold by_version. lia.
  - reflexivity.
Qed.

(** A history of [get_info] requests that all see the same version. *)
Lemma info_requests_fixed (ws : list World) (v : string) :
  Forall (λ w, active_version w = v) ws →
  info_requests v (map (λ w, (GET_get_info, w)) ws) = length ws
  ∧ all_info_requests (map (λ w, (GET_get_info, w)) ws) = length ws.
Proof.
  unfold info_requests, all_info_requests.
  induction 1 as [|w ws Hw _ [IH1 IH2]]; simpl; [split; reflexivity|].
  rewrite !filter_cons. cbn [fst snd].
  rewrite decide_True by (split; [reflexivity | exact Hw]).
  simpl. rewrite IH1, IH2. split; reflexivity.
Qed.

(** ** The claims *)

(** C1.  [N] calls of [GET /get_info] under one value of [APP_VERSION] add
    exactly [N] to [get_info_requests_total] and exactly [N] to the child of
    [get_info_requests_total_by_version] for that version; the two other
    handlers leave both counters as they are. *)
Theorem get_info_counts_requests
        (N : nat) (ws : list World) (version : string) (g : Globals) :
  length ws = N →
  Forall (λ w, active_version w = version) ws →
  let g' := serve_all floatToGoString (map (λ w, (GET_get_info, w)) ws) g in
  total g' = (total g + Z.of_nat N)%Z
  ∧ by_version version g' = (by_version version g + Z.of_nat N)%Z
  ∧ ∀ r w0 g0, r ≠ GET_get_info →
      REQUEST_COUNT (globals_after floatToGoString r w0 g0) = REQUEST_COUNT g0
      ∧ REQUEST_COUNT_PER_VERSION (globals_after floatToGoString r w0 g0)
        = REQUEST_COUNT_PER_VERSION g0.
Proof.
  intros HN Hv g'. subst g'.
  destruct (info_requests_fixed ws version Hv) as [Hn Hall].
  rewrite serve_all_total, serve_all_by_version, Hn, Hall, HN.
  repeat split; try reflexivity.
  - destruct r; [reflexivity | contradiction |].
    unfold globals_after, serve; cbn [fst snd endpoint].
    apply metrics_counters.
  - destruct r; [reflexivity | contradiction |].
    unfold globals_after, serve; cbn [fst snd endpoint].
    apply metrics_counters.
Qed.

(** C2.  [GET /get_info] answers 200 with a JSON object of exactly the keys
    [APP_VERSION], [APP_TITLE] and [MESSAGE], each a string, the last one
    being ["Hello from "] followed by the host name. *)
Theorem get_info_response (w : World) (g : Globals) :
  let r := response_of floatToGoString GET_get_info w g in
  Http.status_code r = 200%Z
  ∧ json_keys r = Some ["APP_VERSION"; "APP_TITLE"; "MESSAGE"]
  ∧ ∃ version title,
      Http.body r
      = Http.Json [ ("APP_VERSION", Py.Str version);
                    ("APP_TITLE", Py.Str title);
                    ("MESSAGE", Py.Str ("Hello from " +:+ gethostname w)) ].
Proof.
  unfold response_of, serve, json_keys. cbn [fst snd endpoint].
  rewrite get_info_run. cbn [result respond Http.JSONResponse Http.status_code Http.body].
  split; [reflexivity|]. split; [reflexivity|].
  destruct (getenv_str (environ w) "APP_VERSION" "1.0") as [version ->].
  destruct (getenv_str (environ w) "APP_TITLE" "My FastAPI App") as [title ->].
  now exists version, title.
Qed.

(** C3.  With [APP_TITLE] unset the response carries the title
    ["My FastAPI App"], with [APP_VERSION] unset the version ["1.0"]; the
    lookups always produce a string and the handler never raises. *)
Theorem get_info_defaults (w : World) (g : Globals) :
  let r := response_of floatToGoString GET_get_info w g in
  (environ w !! "APP_TITLE" = None →
   json_get "APP_TITLE" r = Some (Py.Str "My FastAPI App"))
  ∧ (environ w !! "APP_VERSION" = None →
     json_get "APP_VERSION" r = Some (Py.Str "1.0"))
  ∧ (∀ key default, Py.is_str (Py.getenv (environ w) key (Py.Str default)))
  ∧ returns (result (get_info w g)).
Proof.
  unfold response_of, serve, json_get. cbn [fst snd endpoint].
  rewrite get_info_run.
  cbn [result respond Http.JSONResponse Http.body assoc returns].
  repeat split.
  - intros Hunset. unfold Py.getenv. rewrite Hunset. reflexivity.
  - intros Hunset. unfold Py.getenv. rewrite Hunset. reflexivity.
  - intros key default. destruct (getenv_str (environ w) key default) as [s ->].
    exact I.
Qed.

(** C6, as the code has it.  [GET /] answers with a redirect to [/get_info]
    whose status is 307, the status [RedirectResponse] uses when it is given
    none. *)
Theorem root_redirects (w : World) (g : Globals) :
  let r := response_of floatToGoString GET_root w g in
  Http.status_code r = 307%Z
  ∧ Http.location r = Some "/get_info"
  ∧ (300 <= Http.status_code r < 400)%Z.
Proof.
  unfold response_of, serve. cbn [fst snd endpoint]. rewrite root_run.
  cbn [result respond Http.RedirectResponse Http.status_code Http.location].
  unfold Http.RedirectResponse_default_status. repeat split; lia.
Qed.

(** C8.  [GET /] leaves the module's globals, hence every counter and every
    gauge, exactly as they were, and performs no effect at all. *)
Theorem root_has_no_side_effects (w : World) (g : Globals) :
  globals_after floatToGoString GET_root w g = g
  ∧ events_of floatToGoString GET_root w g = []
  ∧ total (globals_after floatToGoString GET_root w g) = total g
  ∧ (∀ v, series v (globals_after floatToGoString GET_root w g) = series v g)
  ∧ (∀ i, gauge i (globals_after floatToGoString GET_root w g) = gauge i g).
Proof. repeat split. Qed.

(** Which gauge fails first, read off the answers of the five calls. *)
Ltac use_answers :=
  repeat match goal with
         | H : _ = Py.Return _ |- _ => rewrite H
         | H : _ = Py.Raise _ |- _ => rewrite H
         end.

Ltac eval_first_failure :=
  unfold first_failure, gauge_order;
  cbn [List.find sampled_value];
  use_answers;
  cbn [outcome_map].

Lemma first_failure_raises (w : World) (g : Globals) (f : GaugeId) :
  first_failure w g = Some f → raises (sampled_value f w g).
Proof.
  unfold first_failure. intros Hf.
  apply List.find_some in Hf as [_ Hf]. now apply bool_decide_eq_true in Hf.
Qed.

Lemma raises_first_failure (w : World) (g : Globals) (i : GaugeId) :
  raises (sampled_value i w g) → is_Some (first_failure w g).
Proof.
  intros Hi. destruct (first_failure w g) as [f|] eqn:Hf; [eauto|].
  unfold first_failure in Hf.
  assert (Hin : In i gauge_order) by (destruct i; cbn; tauto).
  apply (List.find_none _ _ Hf i) in Hin.
  now apply bool_decide_eq_false in Hin.
Qed.

(** C7.  When one of the five sampling calls raises, [metrics] does not
    catch it: the handler ends with the exception of the first call that
    raised, the client receives the server-error response (status 500, the
    fixed text, no exposition), and every call up to that one was made
    exactly once, none after it and none again. *)
Theorem metrics_failure_is_server_error (w : World) (g : Globals) (i : GaugeId) :
  raises (sampled_value i w g) →
  response_of floatToGoString GET_metrics w g = Http.server_error
  ∧ Http.status_code (response_of floatToGoString GET_metrics w g) = 500%Z
  ∧ text_of (response_of floatToGoString GET_metrics w g)
    = Some "Internal Server Error"
  ∧ ∃ f e,
      first_failure w g = Some f
      ∧ sampled_value f w g = Py.Raise e
      ∧ result (metrics floatToGoString w g) = Py.Raise e
      ∧ calls_made (events_of floatToGoString GET_metrics w g)
        = map call_of (take (S (position f)) gauge_order).
Proof.
  intros Hraise. apply raises_first_failure in Hraise as [f Hf].
  revert Hf. unfold response_of, events_of, serve. cbn [fst snd endpoint].
  metrics_cases w g Hrun; rewrite Hrun; cbn [result respond events];
    eval_first_failure; intros Hf; try discriminate Hf;
    injection Hf as <-;
    (repeat split; try reflexivity);
    eexists _, _; (split; [reflexivity|]);
    cbn [sampled_value outcome_map];
    use_answers;
    repeat split; reflexivity.
Qed.

(** C9.  [metrics] sets the gauges in the order CPU, memory, uptime, thread
    count, disk, and stops at the first call that raises: the request then
    fails, every gauge before that call holds the value just sampled for
    it, and that gauge and the ones after it keep their old value. *)
Theorem failed_scrape_keeps_earlier_gauges (w : World) (g : Globals) :
  let g' := globals_after floatToGoString GET_metrics w g in
  gauges_set (events_of floatToGoString GET_metrics w g)
  = take (from_option position 5 (first_failure w g)) gauge_order
  ∧ ∀ f, first_failure w g = Some f →
      response_of floatToGoString GET_metrics w g = Http.server_error
      ∧ (∀ i, position i < position f →
           Py.Return (Prometheus.gauge_value (gauge i g')) = sampled_value i w g)
      ∧ (∀ i, position f ≤ position i → gauge i g' = gauge i g).
Proof.
  unfold globals_after, response_of, events_of, serve. cbn [fst snd endpoint].
  metrics_cases w g Hrun; rewrite Hrun; cbn [result respond events globals];
    eval_first_failure;
    (split; [reflexivity|]); intros f Hf; try discriminate Hf;
    injection Hf as <-;
    (split; [reflexivity|]);
    (split; intros i Hi; destruct i; cbn in Hi; try lia;
     cbn [sampled_value outcome_map];
     use_answers; reflexivity).
Qed.

(** ** The exposition *)

Lemma generate_latest_line (collected : list Prometheus.Metric)
      (m : Prometheus.Metric) (line needle : string) :
  In m collected →
  In line (Prometheus.metric_lines floatToGoString m) →
  Str.contains line needle →
  Str.contains (Prometheus.generate_latest floatToGoString collected) needle.
Proof.
  intros Hm Hline Hneedle. unfold Prometheus.generate_latest.
  apply contains_join with (p := line); [|exact Hneedle].
  apply list_elem_of_In, in_concat.
  exists (Prometheus.metric_lines floatToGoString m). split; [|exact Hline].
  now apply in_map.
Qed.

(** Every collected family is announced by name on its HELP line. *)
Lemma generate_latest_name (collected : list Prometheus.Metric)
      (m : Prometheus.Metric) (needle : string) :
  In m collected →
  Str.contains (Prometheus.exposed_name m) needle →
  Str.contains (Prometheus.generate_latest floatToGoString collected) needle.
Proof.
  intros Hm Hneedle.
  apply generate_latest_line with (m := m) (line := Prometheus.help_line m);
    [exact Hm | now left |].
  unfold Prometheus.help_line.
  now apply contains_app_r, contains_app_l.
Qed.

(** Every sample of a collected family has its line. *)
Lemma generate_latest_sample (collected : list Prometheus.Metric)
      (m : Prometheus.Metric) (s : Prometheus.Sample) :
  In m collected →
  In s (Prometheus.metric_samples m) →
  Str.contains (Prometheus.generate_latest floatToGoString collected)
               (Prometheus.sample_line floatToGoString s).
Proof.
  intros Hm Hs.
  apply generate_latest_line
    with (m := m) (line := Prometheus.sample_line floatToGoString s);
    [exact Hm | | apply contains_refl].
  unfold Prometheus.metric_lines. right. right. now apply in_map.
Qed.

(** The names under which the module registers its metrics show in the
    exposition of any state that kept the registration. *)
Lemma registered_names_exposed (now : Q) (g : Globals) :
  registration g = registration (import_main now) →
  Forall (Str.contains (Prometheus.generate_latest floatToGoString (collect g)))
         metric_names.
Proof.
  unfold registration. cbn [gauge_order map gauge]. intros Hreg.
  injection Hreg as Hc1 _ _ Hc2 _ _ Hg1 _ Hg2 _ Hg3 _ Hg4 _ Hg5 _ _.
  unfold metric_names.
  repeat apply Forall_cons_2; [| | | | | | |apply Forall_nil_2].
  - apply generate_latest_name
      with (m := Prometheus.collect_Counter (REQUEST_COUNT g)); [cbn; tauto|].
    unfold Prometheus.exposed_name. cbn. rewrite Hc1. apply contains_refl.
  - apply generate_latest_name
      with (m := Prometheus.collect_Counter (REQUEST_COUNT_PER_VERSION g));
      [cbn; tauto|].
    unfold Prometheus.exposed_name. cbn. rewrite Hc2.
    apply contains_app_l, contains_refl.
  - apply generate_latest_name
      with (m := Prometheus.collect_Gauge (CPU_USAGE g)); [cbn; tauto|].
    unfold Prometheus.exposed_name. cbn. rewrite Hg1. apply contains_refl.
  - apply generate_latest_name
      with (m := Prometheus.collect_Gauge (MEMORY_USAGE g)); [cbn; tauto|].
    unfold Prometheus.exposed_name. cbn. rewrite Hg2. apply contains_refl.
  - apply generate_latest_name
      with (m := Prometheus.collect_Gauge (UPTIME g)); [cbn; tauto|].
    unfold Prometheus.exposed_name. cbn. rewrite Hg3. apply contains_refl.
  - apply generate_latest_name
      with (m := Prometheus.collect_Gauge (THREAD_COUNT g)); [cbn; tauto|].
    unfold Prometheus.exposed_name. cbn. rewrite Hg4. apply contains_refl.
  - apply generate_latest_name
      with (m := Prometheus.collect_Gauge (DISK_USAGE g)); [cbn; tauto|].
    unfold Prometheus.exposed_name. cbn. rewrite Hg5. apply contains_refl.
Qed.

(** ** Successful scrapes *)

Lemma sampling_succeeds_answers (w : World) :
  sampling_succeeds w →
  ∃ cpu mem now threads disk,
    cpu_percent w = Py.Return cpu
    ∧ virtual_memory_percent w = Py.Return mem
    ∧ time_time w = Py.Return now
    ∧ active_count w = Py.Return threads
    ∧ disk_usage_percent w "/" = Py.Return disk.
Proof.
  unfold sampling_succeeds, returns.
  destruct (cpu_percent w) as [cpu|]; [|tauto].
  destruct (virtual_memory_percent w) as [mem|]; [|tauto].
  destruct (time_time w) as [now|]; [|tauto].
  destruct (active_count w) as [threads|]; [|tauto].
  destruct (disk_usage_percent w "/") as [disk|]; [|tauto].
  intros _. now exists cpu, mem, now, threads, disk.
Qed.

(** A scrape whose five calls answer: the response, and the gauges after. *)
Lemma metrics_ok_response (w : World) (g : Globals) :
  sampling_succeeds w →
  let g' := globals_after floatToGoString GET_metrics w g in
  response_of floatToGoString GET_metrics w g
  = Http.new_Response
      (Prometheus.generate_latest floatToGoString (collect g'))
      (Some Prometheus.CONTENT_TYPE_LATEST)
  ∧ ∀ i, sampled_value i w g = Py.Return (Prometheus.gauge_value (gauge i g')).
Proof.
  intros (cpu & mem & now & threads & disk & H1 & H2 & H3 & H4 & H5)
         %sampling_succeeds_answers.
  unfold globals_after, response_of, serve. cbn [fst snd endpoint].
  rewrite (metrics_run_ok floatToGoString w g _ _ _ _ _ H1 H2 H3 H4 H5).
  cbn [globals result respond]. split; [reflexivity|].
  intros i. destruct i; cbn [sampled_value]; rewrite ?H1, ?H2, ?H3, ?H4, ?H5;
    reflexivity.
Qed.

(** C4, as the code has it.  Whenever its five sampling calls answer,
    [GET /metrics] returns status 200 with the content type
    [text/plain; version=0.0.4; charset=utf-8] and a text body in which each
    of the seven metric names occurs. *)
Theorem metrics_exposes_all_names
        (now : Q) (history : list (Route * World)) (w : World) :
  sampling_succeeds w →
  let g := serve_all floatToGoString history (import_main now) in
  let r := response_of floatToGoString GET_metrics w g in
  Http.status_code r = 200%Z
  ∧ Http.media_type r = Some Prometheus.CONTENT_TYPE_LATEST
  ∧ Str.starts_with Prometheus.CONTENT_TYPE_LATEST "text/plain; version=0.0.4"
  ∧ ∃ text, text_of r = Some text ∧ Forall (Str.contains text) metric_names.
Proof.
  intros Hok g r. subst r.
  destruct (metrics_ok_response w g Hok) as [-> _].
  split; [reflexivity|]. split; [reflexivity|]. split.
  - now exists "; charset=utf-8".
  - eexists. split; [reflexivity|].
    apply registered_names_exposed with (now := now).
    rewrite serve_registration. apply serve_all_registration.
Qed.

Lemma START_TIME_kept (history : list (Route * World)) (g : Globals) :
  START_TIME (serve_all floatToGoString history g) = START_TIME g.
Proof.
  pose proof (serve_all_registration history g) as Hreg.
  unfold registration in Hreg. now injection Hreg.
Qed.

(** C5, as the code has it.  After a successful [GET /metrics] each gauge
    holds, and the body reports, the value that call sampled.  Hence the CPU
    and memory percentages lie in [0,100] and the thread count is at least 1
    whenever psutil and threading answer within their documented ranges, and
    the uptime is [time.time() - START_TIME]: it is non-negative and does not
    decrease from one successful call to a later one as long as the wall
    clock read by [time.time()] is not behind [START_TIME] nor behind the
    earlier reading. *)
Theorem gauges_hold_the_samples
        (w1 w2 : World) (between : list (Route * World)) (g : Globals)
        (t1 t2 : Q) :
  sampling_succeeds w1 →
  sampling_succeeds w2 →
  documented_ranges w1 →
  time_time w1 = Py.Return t1 →
  time_time w2 = Py.Return t2 →
  (START_TIME g <= t1)%Q →
  (t1 <= t2)%Q →
  let g1 := globals_after floatToGoString GET_metrics w1 g in
  let g2 := globals_after floatToGoString GET_metrics w2
              (serve_all floatToGoString between g1) in
  text_of (response_of floatToGoString GET_metrics w1 g)
  = Some (Prometheus.generate_latest floatToGoString (collect g1))
  ∧ (∀ i, sampled_value i w1 g = Py.Return (Prometheus.gauge_value (gauge i g1)))
  ∧ (0 <= Prometheus.gauge_value (CPU_USAGE g1) <= 100)%Q
  ∧ (0 <= Prometheus.gauge_value (MEMORY_USAGE g1) <= 100)%Q
  ∧ (1 <= Prometheus.gauge_value (THREAD_COUNT g1))%Q
  ∧ Prometheus.gauge_value (UPTIME g1) = (t1 - START_TIME g)%Q
  ∧ (0 <= Prometheus.gauge_value (UPTIME g1))%Q
  ∧ (Prometheus.gauge_value (UPTIME g1) <= Prometheus.gauge_value (UPTIME g2))%Q.
Proof.
  intros Hok1 Hok2 (Hcpu & Hmem & Hthreads) Ht1 Ht2 Hstart Hclock g1 g2.
  destruct (metrics_ok_response w1 g Hok1) as [Hresp Hs1].
  destruct (metrics_ok_response w2 (serve_all floatToGoString between g1) Hok2)
    as [_ Hs2].
  fold g1 in Hresp, Hs1. fold g2 in Hs2.
  pose proof (Hs1 id_CPU_USAGE) as Hv_cpu.
  pose proof (Hs1 id_MEMORY_USAGE) as Hv_mem.
  pose proof (Hs1 id_THREAD_COUNT) as Hv_threads.
  pose proof (Hs1 id_UPTIME) as Hv_up1.
  pose proof (Hs2 id_UPTIME) as Hv_up2.
  cbn [sampled_value gauge] in Hv_cpu, Hv_mem, Hv_threads, Hv_up1, Hv_up2.
  rewrite Ht1 in Hv_up1. rewrite Ht2 in Hv_up2.
  cbn [outcome_map] in Hv_up1, Hv_up2.
  injection Hv_up1 as Hv_up1. injection Hv_up2 as Hv_up2.
  rewrite START_TIME_kept in Hv_up2.
  assert (Hkept : START_TIME g1 = START_TIME g).
  { apply (START_TIME_kept [(GET_metrics, w1)] g). }
  rewrite Hkept in Hv_up2.
  split; [now rewrite Hresp|]. split; [exact Hs1|].
  split; [now apply Hcpu|]. split; [now apply Hmem|].
  split.
  { destruct (active_count w1) as [n|] eqn:Hn; [|discriminate Hv_threads].
    cbn [outcome_map] in Hv_threads. injection Hv_threads as <-.
    change 1%Q with (inject_Z 1). rewrite <- Zle_Qle. now apply Hthreads. }
  rewrite <- Hv_up1, <- Hv_up2. split; [reflexivity|]. split.
  - unfold Qminus. now apply -> Qle_minus_iff.
  - unfold Qminus. now apply Qplus_le_l.
Qed.

(** ** One child per version *)

Lemma child_value_None (k : list string) (m : list (list string * Z)) :
  Prometheus.child_value k m = None ↔ k ∉ map fst m.
Proof.
  induction m as [|[k' v] m IH]; simpl.
  - split; [intros _; apply not_elem_of_nil | reflexivity].
  - rewrite not_elem_of_cons. destruct (decide (k' = k)) as [->|Hne].
    + split; [discriminate | intros [[] _]; reflexivity].
    + rewrite IH. split; [intros ?; split; [congruence | assumption] | tauto].
Qed.


Lemma child_inc_keys (k : list string) (m : list (list string * Z)) :
  map fst (Prometheus.child_inc k m) = map fst m.
Proof.
  induction m as [|[k' v] m IH]; simpl; [reflexivity|].
  destruct (decide (k' = k)); simpl; [reflexivity | now rewrite IH].
Qed.

Lemma labels_inc_NoDup (k : list string) (c : Prometheus.Counter) :
  NoDup (map fst (Prometheus.counter_metrics c)) →
  NoDup (map fst (Prometheus.counter_metrics (Prometheus.labels_inc k c))).
Proof.
  intros Hnd. unfold Prometheus.labels_inc, Prometheus.labels; simpl.
  rewrite child_inc_keys.
  destruct (Prometheus.child_value k (Prometheus.counter_metrics c)) eqn:Hk;
    [exact Hnd|].
  rewrite map_app. simpl. apply NoDup_app. split; [exact Hnd|]. split.
  - intros x Hx ->%list_elem_of_singleton. now apply child_value_None in Hk.
  - apply NoDup_singleton.
Qed.

Lemma serve_versions_NoDup (r : Route) (w : World) (g : Globals) :
  NoDup (versions_seen g) →
  NoDup (versions_seen (globals_after floatToGoString r w g)).
Proof.
  unfold versions_seen, globals_after, serve. cbn [fst snd].
  destruct r; cbn [endpoint].
  - now rewrite root_run.
  - rewrite get_info_run. cbn [globals REQUEST_COUNT_PER_VERSION
      update_REQUEST_COUNT_PER_VERSION update_REQUEST_COUNT].
    apply labels_inc_NoDup.
  - now destruct (metrics_counters w g) as [_ ->].
Qed.

Lemma serve_all_versions_NoDup (history : list (Route * World)) (g : Globals) :
  NoDup (versions_seen g) →
  NoDup (versions_seen (serve_all floatToGoString history g)).
Proof.
  revert g. induction history as [|[r w] history IH]; intros g Hnd; simpl.
  - exact Hnd.
  - now apply IH, serve_versions_NoDup.
Qed.

(** The key of a request is what its environment holds. *)
Lemma active_version_environment (w : World) :
  active_version w = environment_version w.
Proof.
  unfold active_version, environment_version, Py.getenv.
  now destruct (environ w !! "APP_VERSION").
Qed.

Lemma info_requests_under (version : string) (history : list (Route * World)) :
  info_requests version history = requests_under version history.
Proof.
  unfold info_requests, requests_under.
  induction history as [|[r w] history IH]; [reflexivity|].
  rewrite !filter_cons. cbn [fst snd]. rewrite active_version_environment.
  destruct (decide (r = GET_get_info ∧ environment_version w = version));
    simpl; now rewrite IH.
Qed.

(** The printer, spelled out: the line of a sample without labels and the
    line of a sample with the one label [version]. *)
Lemma sample_line_plain (name : string) (v : Q) :
  Prometheus.sample_line floatToGoString (Prometheus.mkSample name [] v)
  = value_line floatToGoString name v.
Proof. reflexivity. Qed.

Lemma sample_line_version (version : string) (count : Z) :
  Prometheus.sample_line floatToGoString
    (Prometheus.mkSample "get_info_requests_total_by_version_total"
       [("version", version)] (inject_Z count))
  = series_line floatToGoString version count.
Proof.
  unfold Prometheus.sample_line, Prometheus.labelstr, Prometheus.label_pair,
    series_line.
  cbn [Prometheus.sample_name Prometheus.sample_labels Prometheus.sample_value
       map Str.join_with fst snd].
  rewrite !append_assoc. reflexivity.
Qed.



(** ** Further properties of the handlers *)

(** The run of [metrics] on a second state, from the answers already known
    for this world. *)
Ltac metrics_again :=
  first
    [ erewrite (metrics_run_ok floatToGoString) by eassumption
    | erewrite (metrics_run_raise_disk floatToGoString) by eassumption
    | erewrite (metrics_run_raise_threads floatToGoString) by eassumption
    | erewrite (metrics_run_raise_time floatToGoString) by eassumption
    | erewrite (metrics_run_raise_memory floatToGoString) by eassumption
    | erewrite (metrics_run_raise_cpu floatToGoString) by eassumption ];
  cbv zeta.

(** X1.  [get_info] touches the two counters and nothing else: every gauge
    and [START_TIME] are as before, it makes no sampling call and sets no
    gauge, so it answers 200 even on a host where every sampling call
    raises. *)
Theorem get_info_touches_only_counters (w : World) (g : Globals) :
  let g' := globals_after floatToGoString GET_get_info w g in
  (∀ i, gauge i g' = gauge i g)
  ∧ START_TIME g' = START_TIME g
  ∧ calls_made (events_of floatToGoString GET_get_info w g) = []
  ∧ gauges_set (events_of floatToGoString GET_get_info w g) = []
  ∧ Http.status_code (response_of floatToGoString GET_get_info w g) = 200%Z.
Proof.
  unfold globals_after, events_of, response_of, serve. cbn [fst snd endpoint].
  rewrite get_info_run. cbn [globals events result respond].
  split; [intros i; now destruct i|]. repeat split.
Qed.

(** X2.  Gauges are overwritten, never accumulated: after a scrape whose
    five calls answer, the globals are what that scrape alone would have
    left, whatever an earlier scrape, failed or not, had written. *)
Theorem scrape_overwrites_earlier_scrape (w1 w2 : World) (g : Globals) :
  sampling_succeeds w2 →
  globals_after floatToGoString GET_metrics w2
    (globals_after floatToGoString GET_metrics w1 g)
  = globals_after floatToGoString GET_metrics w2 g.
Proof.
  intros (cpu2 & mem2 & now2 & threads2 & disk2 & H1 & H2 & H3 & H4 & H5)
         %sampling_succeeds_answers.
  unfold globals_after, serve. cbn [fst snd endpoint].
  rewrite !(metrics_run_ok floatToGoString w2 _ _ _ _ _ _ H1 H2 H3 H4 H5).
  cbn [globals].
  metrics_cases w1 g Hrun; rewrite Hrun; reflexivity.
Qed.

(** X3.  Repeating a scrape while the operating system gives the same
    answers changes nothing further, also when the scrape fails. *)
Theorem scrape_is_idempotent (w : World) (g : Globals) :
  globals_after floatToGoString GET_metrics w
    (globals_after floatToGoString GET_metrics w g)
  = globals_after floatToGoString GET_metrics w g.
Proof.
  unfold globals_after, serve. cbn [fst snd endpoint].
  metrics_cases w g Hrun; rewrite Hrun; cbn [globals];
    metrics_again; reflexivity.
Qed.

(** X4.  A [get_info] request and a scrape do not interfere: served in
    either order they leave the same globals, also when the scrape fails. *)
Theorem get_info_and_scrape_commute (wi wm : World) (g : Globals) :
  globals_after floatToGoString GET_metrics wm
    (globals_after floatToGoString GET_get_info wi g)
  = globals_after floatToGoString GET_get_info wi
      (globals_after floatToGoString GET_metrics wm g).
Proof.
  unfold globals_after, serve. cbn [fst snd endpoint].
  rewrite !get_info_run. cbn [globals].
  metrics_cases wm g Hrun; rewrite Hrun; cbn [globals];
    metrics_again; reflexivity.
Qed.

(** *** The total and the children *)

Lemma children_sum_snoc (m : list (list string * Z)) (k : list string) (v : Z) :
  foldr (λ child acc, (child.2 + acc)%Z) 0%Z (m ++ [(k, v)])
  = (foldr (λ child acc, (child.2 + acc)%Z) 0%Z m + v)%Z.
Proof. induction m as [|[k' v'] m IH]; simpl; [lia | rewrite IH; lia]. Qed.

Lemma children_sum_inc (k : list string) (m : list (list string * Z)) :
  foldr (λ child acc, (child.2 + acc)%Z) 0%Z (Prometheus.child_inc k m)
  = (foldr (λ child acc, (child.2 + acc)%Z) 0%Z m
     + if Prometheus.child_value k m is Some _ then 1 else 0)%Z.
Proof.
  induction m as [|[k' v] m IH]; simpl; [lia|].
  destruct (decide (k' = k)); simpl; [lia | rewrite IH; lia].
Qed.

Lemma labels_inc_children_total (k : list string) (c : Prometheus.Counter) :
  children_total (Prometheus.labels_inc k c) = (children_total c + 1)%Z.
Proof.
  unfold children_total, Prometheus.labels_inc, Prometheus.labels; simpl.
  rewrite children_sum_inc.
  destruct (Prometheus.child_value k (Prometheus.counter_metrics c)) eqn:Hk.
  - now rewrite Hk.
  - rewrite child_value_snoc, Hk, decide_True by reflexivity.
    rewrite children_sum_snoc. lia.
Qed.

Lemma serve_children_total (r : Route) (w : World) (g : Globals) :
  children_total (REQUEST_COUNT_PER_VERSION (globals_after floatToGoString r w g))
  = (children_total (REQUEST_COUNT_PER_VERSION g)
     + if decide (r = GET_get_info) then 1 else 0)%Z.
Proof.
  unfold globals_after, serve. cbn [fst snd]. destruct r; cbn [endpoint].
  - rewrite root_run. cbn [globals]. case_decide; [discriminate | lia].
  - rewrite get_info_run. cbn [globals REQUEST_COUNT_PER_VERSION
      update_REQUEST_COUNT_PER_VERSION update_REQUEST_COUNT].
    rewrite labels_inc_children_total. case_decide; [lia | congruence].
  - destruct (metrics_counters w g) as [_ ->]. case_decide; [discriminate | lia].
Qed.

(** X5.  The two counters stay in step: from the import on, after any
    history of requests, [get_info_requests_total] equals the sum of the
    values of all children of [get_info_requests_total_by_version]. *)
Theorem total_is_sum_of_versions (now : Q) (history : list (Route * World)) :
  let g := serve_all floatToGoString history (import_main now) in
  total g = children_total (REQUEST_COUNT_PER_VERSION g).
Proof.
  cbv zeta.
  assert (Hstep : ∀ h g,
             (total (serve_all floatToGoString h g)
              - children_total (REQUEST_COUNT_PER_VERSION (serve_all floatToGoString h g))
              = total g - children_total (REQUEST_COUNT_PER_VERSION g))%Z).
  { induction h as [|[r w] h IH]; intros g; simpl; [reflexivity|].
    rewrite IH, serve_total, serve_children_total. lia. }
  specialize (Hstep history (import_main now)).
  change (total (import_main now)) with 0%Z in Hstep.
  change (children_total (REQUEST_COUNT_PER_VERSION (import_main now)))
    with 0%Z in Hstep.
  lia.
Qed.

(** X6.  From the import on, [get_info_requests_total] is the number of
    [get_info] requests of the history, however they are interleaved with
    redirects and scrapes, failed or not, and whatever versions they saw. *)
Theorem total_counts_every_info_request (now : Q) (history : list (Route * World)) :
  total (serve_all floatToGoString history (import_main now))
  = Z.of_nat (all_info_requests history).
Proof. rewrite serve_all_total. change (total (import_main now)) with 0%Z. lia. Qed.

(** X7.  Counters only grow: over any history, from any state, the total
    and the count of every version are at least what they were, and a
    version that had a child still has one. *)
Theorem counters_never_decrease
        (history : list (Route * World)) (g : Globals) (version : string) :
  let g' := serve_all floatToGoString history g in
  (total g <= total g')%Z
  ∧ (by_version version g <= by_version version g')%Z
  ∧ (is_Some (series version g) → is_Some (series version g')).
Proof.
  cbv zeta. rewrite serve_all_total, serve_all_by_version, serve_all_series.
  split; [lia|]. split; [lia|].
  intros Hsome. destruct (decide (info_requests version history = 0)); eauto.
Qed.

(** X8.  A variable that is set is reported as it is, the empty string
    included: with [APP_VERSION] set to [v] the response carries [v] and the
    request counts under [v]; with [APP_TITLE] set to [t] the response
    carries [t].  The defaults apply to unset variables only. *)
Theorem set_variables_are_reported_verbatim (w : World) (g : Globals) :
  let r := response_of floatToGoString GET_get_info w g in
  let g' := globals_after floatToGoString GET_get_info w g in
  (∀ v, environ w !! "APP_VERSION" = Some v →
        json_get "APP_VERSION" r = Some (Py.Str v)
        ∧ series v g' = Some (by_version v g + 1)%Z)
  ∧ (∀ t, environ w !! "APP_TITLE" = Some t →
          json_get "APP_TITLE" r = Some (Py.Str t)).
Proof.
  cbv zeta. split.
  - intros v Hv.
    assert (Hactive : active_version w = v).
    { unfold active_version, Py.getenv. now rewrite Hv. }
    rewrite serve_series, decide_True by (split; [reflexivity | exact Hactive]).
    split; [|reflexivity].
    unfold response_of, serve, json_get. cbn [fst snd endpoint].
    rewrite get_info_run. cbn [result respond Http.JSONResponse Http.body assoc].
    unfold Py.getenv. rewrite Hv. reflexivity.
  - intros t Ht.
    unfold response_of, serve, json_get. cbn [fst snd endpoint].
    rewrite get_info_run. cbn [result respond Http.JSONResponse Http.body assoc].
    unfold Py.getenv. rewrite Ht. reflexivity.
Qed.

(** *** What a scrape prints *)

(** X9.  A successful scrape prints the line [get_info_requests_total n],
    where [n] is the number of [get_info] requests served since the
    import. *)
Theorem scrape_prints_the_request_total
        (now : Q) (history : list (Route * World)) (w : World) :
  sampling_succeeds w →
  let g := serve_all floatToGoString history (import_main now) in
  ∃ text,
    text_of (response_of floatToGoString GET_metrics w g) = Some text
    ∧ Str.contains text
        ("get_info_requests_total " +:+
         floatToGoString (inject_Z (Z.of_nat (all_info_requests history)))
         +:+ Str.of_char Str.LF).
Proof.
  intros Hok g.
  destruct (metrics_ok_response w g Hok) as [-> _].
  eexists. split; [reflexivity|].
  set (g' := globals_after floatToGoString GET_metrics w g).
  assert (Hcounter : REQUEST_COUNT g' = REQUEST_COUNT g).
  { subst g'. unfold globals_after, serve. cbn [fst snd endpoint].
    apply metrics_counters. }
  assert (Hvalue : Prometheus.counter_value (REQUEST_COUNT g)
                   = Z.of_nat (all_info_requests history)).
  { subst g. fold (total (serve_all floatToGoString history (import_main now))).
    rewrite serve_all_total. change (total (import_main now)) with 0%Z. lia. }
  pose proof (serve_all_registration history (import_main now)) as Hreg.
  fold g in Hreg. unfold registration in Hreg.
  injection Hreg as Hname _ Hlabels _ _ _ _ _ _ _ _ _ _ _ _ _ _.
  change ("get_info_requests_total " +:+
          floatToGoString (inject_Z (Z.of_nat (all_info_requests history)))
          +:+ Str.of_char Str.LF)
    with (value_line floatToGoString "get_info_requests_total"
            (inject_Z (Z.of_nat (all_info_requests history)))).
  rewrite <- sample_line_plain.
  apply generate_latest_sample
    with (m := Prometheus.collect_Counter (REQUEST_COUNT g')).
  { cbn. tauto. }
  rewrite Hcounter. unfold Prometheus.collect_Counter.
  cbn [Prometheus.metric_samples]. rewrite Hlabels, Hname, Hvalue.
  now left.
Qed.

(** X10.  A successful scrape prints, for each gauge, the line
    [name value] with the gauge's registered name and the value sampled by
    this very request: the gauges are set before the exposition is
    written. *)
Theorem scrape_prints_fresh_samples
        (now : Q) (history : list (Route * World)) (w : World)
        (i : GaugeId) (v : Q) :
  sampling_succeeds w →
  let g := serve_all floatToGoString history (import_main now) in
  sampled_value i w g = Py.Return v →
  ∃ text,
    text_of (response_of floatToGoString GET_metrics w g) = Some text
    ∧ Str.contains text
        (registered_name i +:+ " " +:+ floatToGoString v +:+ Str.of_char Str.LF).
Proof.
  intros Hok g Hv.
  destruct (metrics_ok_response w g Hok) as [-> Hs].
  eexists. split; [reflexivity|].
  set (g' := globals_after floatToGoString GET_metrics w g) in *.
  specialize (Hs i). rewrite Hv in Hs. injection Hs as Hs.
  assert (Hreg : registration g' = registration (import_main now)).
  { subst g' g. rewrite serve_registration. apply serve_all_registration. }
  unfold registration in Hreg. cbn [gauge_order map gauge] in Hreg.
  injection Hreg as _ _ _ _ _ _ Hg1 _ Hg2 _ Hg3 _ Hg4 _ Hg5 _ _.
  change (registered_name i +:+ " " +:+ floatToGoString v +:+ Str.of_char Str.LF)
    with (value_line floatToGoString (registered_name i) v).
  rewrite <- sample_line_plain.
  apply generate_latest_sample with (m := Prometheus.collect_Gauge (gauge i g')).
  { destruct i; cbn; tauto. }
  unfold Prometheus.collect_Gauge. cbn [Prometheus.metric_samples].
  rewrite Hs. left.
  destruct i; cbn [gauge registered_name];
    rewrite ?Hg1, ?Hg2, ?Hg3, ?Hg4, ?Hg5; reflexivity.
Qed.

(** *** The order of the children *)

Lemma join_app (a b : list string) :
  Str.join (a ++ b) = Str.join a +:+ Str.join b.
Proof.
  induction a as [|x a IH]; [reflexivity|].
  change (x +:+ Str.join (a ++ b) = (x +:+ Str.join a) +:+ Str.join b).
  now rewrite IH, append_assoc.
Qed.

(** The exposition around the samples of one family. *)
Lemma generate_latest_split (before after : list Prometheus.Metric)
      (m : Prometheus.Metric) :
  Prometheus.generate_latest floatToGoString (before ++ m :: after)
  = (Prometheus.generate_latest floatToGoString before
     +:+ Prometheus.help_line m +:+ Prometheus.type_line m)
    +:+ Str.join (map (Prometheus.sample_line floatToGoString)
                      (Prometheus.metric_samples m))
    +:+ Prometheus.generate_latest floatToGoString after.
Proof.
  unfold Prometheus.generate_latest.
  rewrite map_app, concat_app, join_app. cbn [map concat]. rewrite join_app.
  change (Str.join (Prometheus.metric_lines floatToGoString m))
    with (Prometheus.help_line m +:+ Prometheus.type_line m
          +:+ Str.join (map (Prometheus.sample_line floatToGoString)
                            (Prometheus.metric_samples m))).
  now rewrite !append_assoc.
Qed.

(** A dict without repeated keys is its keys, each with its value. *)
Lemma children_from_keys (l : list (list string * Z)) :
  NoDup (map fst l) →
  l = map (λ k, (k, default 0%Z (Prometheus.child_value k l))) (map fst l).
Proof.
  induction l as [|[k v] l IH]; [reflexivity|].
  cbn [map fst]. intros [Hk Hnd]%NoDup_cons.
  cbn [Prometheus.child_value]. rewrite decide_True by reflexivity.
  cbn [default]. f_equal.
  rewrite (IH Hnd) at 1. apply map_ext_in. intros k' Hk'.
  rewrite decide_False; [reflexivity|].
  intros ->. apply Hk. now apply list_elem_of_In.
Qed.

Lemma labels_inc_keys (k : list string) (c : Prometheus.Counter) :
  map fst (Prometheus.counter_metrics (Prometheus.labels_inc k c))
  = if decide (k ∈ map fst (Prometheus.counter_metrics c))
    then map fst (Prometheus.counter_metrics c)
    else map fst (Prometheus.counter_metrics c) ++ [k].
Proof.
  unfold Prometheus.labels_inc, Prometheus.labels; simpl.
  rewrite child_inc_keys.
  destruct (Prometheus.child_value k (Prometheus.counter_metrics c)) eqn:Hk.
  - rewrite decide_True; [reflexivity|].
    destruct (decide (k ∈ map fst (Prometheus.counter_metrics c))) as [|Hn];
      [assumption|].
    apply child_value_None in Hn. congruence.
  - rewrite decide_False by now apply child_value_None.
    now rewrite map_app.
Qed.

Lemma requested_versions_cons (r : Route) (w : World)
      (history : list (Route * World)) :
  requested_versions ((r, w) :: history)
  = if decide (r = GET_get_info)
    then environment_version w :: requested_versions history
    else requested_versions history.
Proof.
  unfold requested_versions. simpl. destruct (decide (r = GET_get_info)); reflexivity.
Qed.

Lemma note_version_keys (seen : list string) (v : string) :
  (if decide ([v] ∈ map (λ x, [x]) seen)
   then map (λ x, [x]) seen
   else map (λ x, [x]) seen ++ [[v]])
  = map (λ x, [x]) (note_version seen v).
Proof.
  unfold note_version.
  destruct (decide (v ∈ seen)) as [Hin|Hout].
  - rewrite decide_True; [reflexivity|].
    apply list_elem_of_In, in_map_iff. exists v. split; [reflexivity|].
    now apply list_elem_of_In.
  - rewrite decide_False; [now rewrite map_app|].
    intros (x & [= ->] & Hx)%list_elem_of_In%in_map_iff.
    apply Hout. now apply list_elem_of_In.
Qed.

Lemma serve_all_versions_order (history : list (Route * World)) (g : Globals)
      (seen : list string) :
  versions_seen g = map (λ v, [v]) seen →
  versions_seen (serve_all floatToGoString history g)
  = map (λ v, [v]) (foldl note_version seen (requested_versions history)).
Proof.
  revert g seen. induction history as [|[r w] history IH]; intros g seen Hseen;
    [exact Hseen|].
  cbn [serve_all]. rewrite requested_versions_cons.
  destruct r; cbn [foldl].
  - rewrite decide_False by discriminate. now apply IH.
  - rewrite decide_True by reflexivity. cbn [foldl]. apply IH.
    unfold versions_seen, globals_after, serve in *. cbn [fst snd endpoint].
    rewrite get_info_run.
    cbn [globals REQUEST_COUNT_PER_VERSION update_REQUEST_COUNT_PER_VERSION
         update_REQUEST_COUNT].
    rewrite labels_inc_keys, Hseen, active_version_environment.
    apply note_version_keys.
  - rewrite decide_False by discriminate. apply IH.
    unfold versions_seen, globals_after, serve in *. cbn [fst snd endpoint].
    now destruct (metrics_counters w g) as [_ ->].
Qed.

(** X11.  The children of [get_info_requests_total_by_version] stand in the
    order in which their versions were first requested, and so do their
    lines in the exposition: from the import on, the children are the
    versions the [get_info] requests found in their environment, each kept
    at its first occurrence, and the body of every successful scrape holds
    the lines of these versions, each with its count, one after the other
    in that order. *)
Theorem versions_stand_in_order_of_first_request
        (now : Q) (history : list (Route * World)) :
  let g := serve_all floatToGoString history (import_main now) in
  let ordered := foldl note_version [] (requested_versions history) in
  versions_seen g = map (λ v, [v]) ordered
  ∧ ∀ w, sampling_succeeds w →
      ∃ pre post,
        text_of (response_of floatToGoString GET_metrics w g)
        = Some (pre
                +:+ Str.join
                      (map (λ v, series_line floatToGoString v
                                   (Z.of_nat (requests_under v history)))
                           ordered)
                +:+ post).
Proof.
  intros g ordered.
  assert (Horder : versions_seen g = map (λ v, [v]) ordered).
  { subst g ordered. now apply serve_all_versions_order. }
  split; [exact Horder|]. intros w Hok.
  destruct (metrics_ok_response w g Hok) as [-> _].
  set (g' := globals_after floatToGoString GET_metrics w g).
  assert (Hcounter : REQUEST_COUNT_PER_VERSION g' = REQUEST_COUNT_PER_VERSION g).
  { subst g'. unfold globals_after, serve. cbn [fst snd endpoint].
    apply metrics_counters. }
  pose proof (serve_all_registration history (import_main now)) as Hreg.
  fold g in Hreg. unfold registration in Hreg.
  injection Hreg as _ _ _ Hname _ Hlabels _ _ _ _ _ _ _ _ _ _ _.
  assert (Hchildren :
            Prometheus.counter_metrics (REQUEST_COUNT_PER_VERSION g)
            = map (λ v, ([v], Z.of_nat (requests_under v history))) ordered).
  { rewrite (children_from_keys
               (Prometheus.counter_metrics (REQUEST_COUNT_PER_VERSION g))).
    - fold (versions_seen g). rewrite Horder, map_map.
      apply map_ext. intros v. f_equal.
      fold (series v g). fold (by_version v g). subst g.
      rewrite serve_all_by_version, info_requests_under.
      change (by_version v (import_main now)) with 0%Z. lia.
    - fold (versions_seen g). subst g.
      apply serve_all_versions_NoDup. cbn. apply NoDup_nil_2. }
  eexists _, _. cbn [text_of Http.new_Response Http.body]. f_equal.
  change (collect g')
    with ([Prometheus.collect_Counter (REQUEST_COUNT g')]
          ++ Prometheus.collect_Counter (REQUEST_COUNT_PER_VERSION g')
          :: [ Prometheus.collect_Gauge (CPU_USAGE g');
               Prometheus.collect_Gauge (MEMORY_USAGE g');
               Prometheus.collect_Gauge (UPTIME g');
               Prometheus.collect_Gauge (THREAD_COUNT g');
               Prometheus.collect_Gauge (DISK_USAGE g') ]).
  rewrite generate_latest_split. f_equal. f_equal. f_equal.
  rewrite Hcounter. unfold Prometheus.collect_Counter.
  cbn [Prometheus.metric_samples]. rewrite Hlabels, Hname, Hchildren.
  rewrite !map_map. apply map_ext. intros v.
  apply sample_line_version.
Qed.

End Requests.

(** * Closed examples *)

(** C1 at two requests on a healthy host. *)
Lemma get_info_counts_requests_example :
  total (serve_all show_fraction
           [(GET_get_info, world_ok); (GET_get_info, world_ok)] fresh) = 2%Z
  ∧ by_version "1.0"
      (serve_all show_fraction
         [(GET_get_info, world_ok); (GET_get_info, world_ok)] fresh) = 2%Z.
Proof.
  assert (Hfixed : Forall (λ w, active_version w = "1.0") [world_ok; world_ok])
    by (repeat constructor).
  destruct (get_info_counts_requests show_fraction 2 [world_ok; world_ok]
              "1.0" fresh eq_refl Hfixed) as (Htotal & Hversion & _).
  split; [exact Htotal | exact Hversion].
Defined.

(** C3 with nothing set in the environment. *)
Lemma get_info_defaults_example :
  json_get "APP_TITLE" (response_of show_fraction GET_get_info world_ok fresh)
  = Some (Py.Str "My FastAPI App")
  ∧ json_get "APP_VERSION" (response_of show_fraction GET_get_info world_ok fresh)
    = Some (Py.Str "1.0").
Proof.
  destruct (get_info_defaults show_fraction world_ok fresh)
    as (Htitle & Hversion & _).
  split; [apply Htitle | apply Hversion]; reflexivity.
Defined.

(** C4, as stated, fails: a scrape during which [psutil.disk_usage] raises is
    answered with status 500, not 200. *)
Lemma metrics_is_not_always_200 :
  Http.status_code (response_of show_fraction GET_metrics world_disk_fails fresh)
  ≠ 200%Z.
Proof. vm_compute. discriminate. Qed.

(** C4, amended, on a healthy host after one [get_info] request. *)
Lemma metrics_exposes_all_names_example :
  Http.status_code
    (response_of show_fraction GET_metrics world_ok
       (serve_all show_fraction [(GET_get_info, world_ok)] fresh)) = 200%Z
  ∧ ∃ text,
      text_of
        (response_of show_fraction GET_metrics world_ok
           (serve_all show_fraction [(GET_get_info, world_ok)] fresh))
      = Some text
      ∧ Forall (Str.contains text) metric_names.
Proof.
  assert (Hok : sampling_succeeds world_ok) by (repeat split).
  destruct (metrics_exposes_all_names show_fraction (100 # 1)
              [(GET_get_info, world_ok)] world_ok Hok) as (Hstatus & _ & _ & Hbody).
  split; [exact Hstatus | exact Hbody].
Defined.

(** C5, as stated, fails: two successful scrapes between which the wall
    clock was set back report a smaller uptime the second time. *)
Lemma uptime_can_decrease :
  sampling_succeeds world_ok
  ∧ sampling_succeeds world_clock_set_back
  ∧ (Prometheus.gauge_value
       (UPTIME (globals_after show_fraction GET_metrics world_clock_set_back
                  (globals_after show_fraction GET_metrics world_ok fresh)))
     < Prometheus.gauge_value
         (UPTIME (globals_after show_fraction GET_metrics world_ok fresh)))%Q.
Proof. split; [repeat split|]. split; [repeat split|]. vm_compute. reflexivity. Qed.

(** C5, amended, on two scrapes ten seconds apart. *)
Lemma gauges_hold_the_samples_example :
  (0 <= Prometheus.gauge_value
          (UPTIME (globals_after show_fraction GET_metrics world_ok fresh)))%Q
  ∧ (Prometheus.gauge_value
       (UPTIME (globals_after show_fraction GET_metrics world_ok fresh))
     <= Prometheus.gauge_value
          (UPTIME (globals_after show_fraction GET_metrics world_later
                     (serve_all show_fraction [(GET_get_info, world_ok)]
                        (globals_after show_fraction GET_metrics world_ok fresh)))))%Q.
Proof.
  assert (Hok1 : sampling_succeeds world_ok) by (repeat split).
  assert (Hok2 : sampling_succeeds world_later) by (repeat split).
  assert (Hranges : documented_ranges world_ok).
  { split; [|split]; intros ? [= <-]; try split; vm_compute; discriminate. }
  assert (Hstart : (START_TIME fresh <= 110 # 1)%Q) by (vm_compute; discriminate).
  assert (Hclock : (110 # 1 <= 120 # 1)%Q) by (vm_compute; discriminate).
  destruct (gauges_hold_the_samples show_fraction world_ok world_later
              [(GET_get_info, world_ok)] fresh (110 # 1) (120 # 1)
              Hok1 Hok2 Hranges eq_refl eq_refl Hstart Hclock)
    as (_ & _ & _ & _ & _ & _ & Hnonneg & Hmono).
  split; [exact Hnonneg | exact Hmono].
Defined.

(** C6, as stated, fails: the status of the redirect is not 302. *)
Lemma root_status_is_not_302 :
  Http.status_code (response_of show_fraction GET_root world_ok fresh) ≠ 302%Z.
Proof. vm_compute. discriminate. Qed.

(** C7 when [psutil.disk_usage] raises. *)
Lemma metrics_failure_is_server_error_example :
  Http.status_code (response_of show_fraction GET_metrics world_disk_fails fresh)
  = 500%Z
  ∧ text_of (response_of show_fraction GET_metrics world_disk_fails fresh)
    = Some "Internal Server Error".
Proof.
  assert (Hraises : raises (sampled_value id_DISK_USAGE world_disk_fails fresh))
    by exact I.
  destruct (metrics_failure_is_server_error show_fraction world_disk_fails
              fresh id_DISK_USAGE Hraises) as (_ & Hstatus & Htext & _).
  split; [exact Hstatus | exact Htext].
Defined.

(** C9 when [psutil.disk_usage] raises: the request fails, yet the CPU
    gauge, 0 before, now holds the sampled 5/2, and the disk gauge is as it
    was. *)
Lemma failed_scrape_changes_the_registry :
  response_of show_fraction GET_metrics world_disk_fails fresh = Http.server_error
  ∧ Prometheus.gauge_value (CPU_USAGE fresh) = 0%Q
  ∧ Py.Return
      (Prometheus.gauge_value
         (CPU_USAGE (globals_after show_fraction GET_metrics world_disk_fails fresh)))
    = Py.Return (5 # 2)
  ∧ DISK_USAGE (globals_after show_fraction GET_metrics world_disk_fails fresh)
    = DISK_USAGE fresh.
Proof.
  destruct (failed_scrape_keeps_earlier_gauges show_fraction world_disk_fails fresh)
    as [_ Hfail].
  destruct (Hfail id_DISK_USAGE eq_refl) as (Hresp & Hbefore & Hafter).
  split; [exact Hresp|]. split; [reflexivity|]. split.
  - apply (Hbefore id_CPU_USAGE). cbn. lia.
  - apply (Hafter id_DISK_USAGE). cbn. lia.
Defined.



(** X2 on a failed scrape followed by a successful one. *)
Lemma scrape_overwrites_earlier_scrape_example :
  globals_after show_fraction GET_metrics world_later
    (globals_after show_fraction GET_metrics world_disk_fails fresh)
  = globals_after show_fraction GET_metrics world_later fresh.
Proof.
  assert (Hok : sampling_succeeds world_later) by (repeat split).
  exact (scrape_overwrites_earlier_scrape show_fraction world_disk_fails
           world_later fresh Hok).
Defined.

(** X8 with [APP_VERSION] set to the empty string. *)
Lemma set_variables_are_reported_verbatim_example :
  json_get "APP_VERSION"
    (response_of show_fraction GET_get_info world_blank_version fresh)
  = Some (Py.Str EmptyString)
  ∧ series EmptyString
      (globals_after show_fraction GET_get_info world_blank_version fresh)
    = Some 1%Z
  ∧ json_get "APP_TITLE"
      (response_of show_fraction GET_get_info world_blank_version fresh)
    = Some (Py.Str "Pilot").
Proof.
  destruct (set_variables_are_reported_verbatim show_fraction
              world_blank_version fresh) as [Hversion Htitle].
  destruct (Hversion EmptyString eq_refl) as [Hbody Hseries].
  split; [exact Hbody|]. split; [exact Hseries|].
  exact (Htitle "Pilot" eq_refl).
Defined.

(** X9 after three [get_info] requests. *)
Lemma scrape_prints_the_request_total_example :
  ∃ text,
    text_of (response_of show_fraction GET_metrics world_ok
               (serve_all show_fraction mixed_history fresh)) = Some text
    ∧ Str.contains text ("get_info_requests_total 3/1" +:+ Str.of_char Str.LF).
Proof.
  assert (Hok : sampling_succeeds world_ok) by (repeat split).
  exact (scrape_prints_the_request_total show_fraction (100 # 1) mixed_history
           world_ok Hok).
Defined.

(** X10 for the uptime, ten seconds after the import. *)
Lemma scrape_prints_fresh_samples_example :
  ∃ text,
    text_of (response_of show_fraction GET_metrics world_ok
               (serve_all show_fraction mixed_history fresh)) = Some text
    ∧ Str.contains text ("uptime_seconds 10/1" +:+ Str.of_char Str.LF).
Proof.
  assert (Hok : sampling_succeeds world_ok) by (repeat split).
  exact (scrape_prints_fresh_samples show_fraction (100 # 1) mixed_history
           world_ok id_UPTIME ((110 # 1) - (100 # 1))%Q Hok eq_refl).
Defined.

(** X11 on the history that switches version in between: 1.0 was asked for
    first, so its line stands right before the line of 2.0. *)
Lemma versions_stand_in_order_of_first_request_example :
  ∃ pre post,
    text_of (response_of show_fraction GET_metrics world_ok
               (serve_all show_fraction mixed_history fresh))
    = Some (pre
            +:+ Str.join
                  [ "get_info_requests_total_by_version_total{version="
                      +:+ Str.of_char Str.DQUOTE +:+ "1.0" +:+ Str.of_char Str.DQUOTE
                      +:+ "} 2/1" +:+ Str.of_char Str.LF;
                    "get_info_requests_total_by_version_total{version="
                      +:+ Str.of_char Str.DQUOTE +:+ "2.0" +:+ Str.of_char Str.DQUOTE
                      +:+ "} 1/1" +:+ Str.of_char Str.LF ]
            +:+ post).
Proof.
  assert (Hok : sampling_succeeds world_ok) by (repeat split).
  destruct (versions_stand_in_order_of_first_request show_fraction (100 # 1)
              mixed_history) as [_ Hlines].
  exact (Hlines world_ok Hok).
Defined.
